(** * The Limitador operator: reconciliation core

    A shallow embedding of the controller of the Limitador operator
    ([controllers/limitador_controller.go]), of its annotation helpers
    ([pkg/helpers]) and of the Redis storage-option resolvers of
    [pkg/limitador], followed by the properties the design document
    states about them.

    Conventions.
    - A Go [error] value is [option error]: [None] is [nil].
    - A Go pointer field or nil-able map is an [option]: [None] is [nil].
    - A Go function returning [(ctrl.Result, error)] returns a pair: Go
      really does return both components, and the controller inspects
      both. A function whose value is only looked at when its error is
      nil returns a [result]: the value or the error.
    - A call that may panic returns an [outcome].
    - Calls into the cluster are state transformers over an abstract
      [World]; every call that matters to a property leaves an [Event] in
      a ghost trace, so that "this step ran" is a statement about the
      trace. *)

From Stdlib Require Import ZArith.
From stdpp Require Import base option gmap strings list pretty.

Local Open Scope Z_scope.
Local Open Scope string_scope.

(** ** Go errors *)

(** Two families of error values reach the controller: API status errors
    whose reason is NotFound (recognised by [errors.IsNotFound]) and
    everything else ([errors.New], [fmt.Errorf], other API errors). *)
Inductive error : Type :=
  | StatusNotFound (msg : string)
  | ErrorString (msg : string).

#[global] Instance error_eq_dec : EqDecision error.
Proof. solve_decision. Defined.

Module errors.
Definition IsNotFound (err : error) : bool :=
  match err with
  | StatusNotFound _ => true
  | ErrorString _ => false
  end.

Definition New (msg : string) : error := ErrorString msg.
End errors.

(** ** apimachinery: object metadata *)

(** Go maps are reference values: a map-typed field holds [nil] or a
    reference into a store of maps, and two copies of the reference see
    each other's writes. *)
Module gomap.

Abbreviation ref := positive.
Abbreviation store := (gmap positive (gmap string string)).

(** [make(map[string]string)]: a fresh, empty map. *)
Definition make (h : store) : ref * store :=
  let l := fresh (dom h) in (l, <[l := ∅]> h).

(** [m[k] = v] through a non-nil reference. [None] stands for a reference
    that was never allocated, which no Go program can hold. *)
Definition assign (l : ref) (k v : string) (h : store) : option store :=
  match h !! l with
  | Some m => Some (<[l := <[k := v]> m]> h)
  | None => None
  end.

(** [v, ok := m[k]] through a non-nil reference. *)
Definition index (l : ref) (k : string) (h : store) : option string :=
  match h !! l with
  | Some m => m !! k
  | None => None
  end.

End gomap.

Module types.
Record NamespacedName : Type := mkNamespacedName {
  Namespace : string;
  Name : string;
}.
End types.

Module metav1.

(** The part of [metav1.ObjectMeta] the operator reads or writes. *)
Record ObjectMeta : Type := mkObjectMeta {
  Name : string;
  Namespace : string;
  Annotations : option gomap.ref;
  DeletionTimestamp : option Z;
}.

End metav1.

(** ** controller-runtime: the [client.Object] interface *)

Module client.

(** The two accessors of [client.Object] that the helpers call. The law
    is the contract of [metav1.Object]: the setter stores the reference
    it is given, and the getter hands back the stored reference. *)
Class Object (T : Type) : Type := {
  GetAnnotations : T → option gomap.ref;
  SetAnnotations : option gomap.ref → T → T;
  GetAnnotations_SetAnnotations :
    ∀ a o, GetAnnotations (SetAnnotations a o) = a;
}.

(** [ObjectMeta] implements the accessors by reading and writing its
    [Annotations] field. *)
#[global, refine] Instance ObjectMeta_Object : Object metav1.ObjectMeta := {|
  GetAnnotations := metav1.Annotations;
  SetAnnotations a o :=
    metav1.mkObjectMeta (metav1.Name o) (metav1.Namespace o) a
                        (metav1.DeletionTimestamp o);
|}.
Proof. reflexivity. Defined.

End client.

(** ** pkg/helpers *)

Module helpers.
Import client.

Definition DeleteTagAnnotation : string := "limitador.kuadrant.io/delete".

(** [TagObjectToDelete]: the object and the map store after the call. *)
Definition TagObjectToDelete `{Object T} (obj : T) (h : gomap.store)
  : option (T * gomap.store) :=
  let annotations := GetAnnotations obj in
  let '(annotations, obj, h) :=
    match annotations with
    | None =>
        let '(annotations, h) := gomap.make h in
        (annotations, SetAnnotations (Some annotations) obj, h)
    | Some annotations => (annotations, obj, h)
    end in
  h ← gomap.assign annotations DeleteTagAnnotation "true" h;
  Some (obj, h).

Definition IsObjectTaggedToDelete `{Object T} (obj : T) (h : gomap.store)
  : bool :=
  let annotations := GetAnnotations obj in
  match annotations with
  | None => false
  | Some annotations =>
      match gomap.index annotations DeleteTagAnnotation h with
      | Some annotation => bool_decide (annotation = "true")
      | None => false
      end
  end.

(** An object is well formed in a store when its annotation reference,
    if any, is allocated there. *)
Definition allocated `{Object T} (obj : T) (h : gomap.store) : Prop :=
  match GetAnnotations obj with
  | None => True
  | Some l => is_Some (h !! l)
  end.

End helpers.

(** ** Results of fallible calls *)

(** A callee that follows Go's "value or error" convention, and whose
    caller looks at the value only when the error is nil. *)
Inductive result (A : Type) : Type :=
  | Ok (a : A)
  | Err (err : error).
Arguments Ok {A} a.
Arguments Err {A} err.

Definition is_Err {A} (r : result A) : bool :=
  match r with Ok _ => false | Err _ => true end.

(** ** k8s.io/api/core/v1 *)

Module v1.

Record ObjectReference : Type := mkObjectReference {
  Name : string;
  Namespace : string;
}.

(** A Secret: its metadata and its [Data] payload. *)
Record Secret : Type := mkSecret {
  ObjectMeta : metav1.ObjectMeta;
  Data : gmap string string;
}.

(** A ConfigMap; its [Data] is a Go map and may be nil. *)
Module ConfigMap.
Record t : Type := mk {
  ObjectMeta : metav1.ObjectMeta;
  Data : option (gmap string string);
}.
End ConfigMap.

End v1.

(** ** api/v1alpha1: the declaration *)

Module limitadorv1alpha1.

Module RedisCachedOptions.
Record t : Type := mk {
  TTL : option Z;
  Ratio : option Z;
  FlushPeriod : option Z;
  MaxCached : option Z;
}.
End RedisCachedOptions.

Module Redis.
Record t : Type := mk {
  ConfigSecretRef : option v1.ObjectReference;
}.
End Redis.

Module RedisCached.
Record t : Type := mk {
  ConfigSecretRef : option v1.ObjectReference;
  Options : option RedisCachedOptions.t;
}.
End RedisCached.

(** The disk backend's settings; the controller only tests whether
    they are present and hands them on. *)
Module DiskSpec.
Inductive t : Type := mk.
End DiskSpec.

Module Storage.
Record t : Type := mk {
  Redis : option Redis.t;
  RedisCached : option RedisCached.t;
  Disk : option DiskSpec.t;
}.
End Storage.

(** A disruption-budget policy: [MaxUnavailable] and [MinAvailable],
    as plain numbers. *)
Module PodDisruptionBudgetType.
Record t : Type := mk {
  MaxUnavailable : option Z;
  MinAvailable : option Z;
}.
End PodDisruptionBudgetType.

Module LimitadorSpec.
Record t : Type := mk {
  Replicas : option Z;
  Storage : option Storage.t;
  PodDisruptionBudget : option PodDisruptionBudgetType.t;
}.
End LimitadorSpec.

Module Limitador.
Record t : Type := mk {
  ObjectMeta : metav1.ObjectMeta;
  Spec : LimitadorSpec.t;
}.
Definition Namespace (l : t) : string := metav1.Namespace (ObjectMeta l).
Definition GetDeletionTimestamp (l : t) : option Z :=
  metav1.DeletionTimestamp (ObjectMeta l).
End Limitador.

End limitadorv1alpha1.

(** ** pkg/limitador: storage options *)

Module limitador.
Import limitadorv1alpha1.

Inductive DeploymentStrategyType : Type :=
  | StrategyUnset
  | RollingUpdateDeploymentStrategyType
  | RecreateDeploymentStrategyType.

#[global] Instance DeploymentStrategyType_eq_dec :
  EqDecision DeploymentStrategyType.
Proof. solve_decision. Defined.

Record DeploymentStorageOptions : Type := mkDeploymentStorageOptions {
  Command : list string;
  VolumeMounts : list string;
  Volumes : list string;
  DeploymentStrategy : DeploymentStrategyType;
}.

#[global] Instance DeploymentStorageOptions_eq_dec :
  EqDecision DeploymentStorageOptions.
Proof. solve_decision. Defined.

(** The secret store as the resolvers see it: the default namespace and
    the reference identify the secret; the answer is the secret or the
    store's error. *)
Definition SecretGetter : Type := string → v1.ObjectReference → result v1.Secret.

(** [strconv.Itoa]. *)
Definition Itoa (i : Z) : string := pretty i.

(** Modelled from the spec: the check both Redis backends make on their
    secret ([pkg/limitador] is not among the sources, only its test is):
    the secret is fetched, a fetch error is handed back as it is, and a
    fetched secret without the [URL] key is a configuration error. The
    message is the one the test expects. *)
Definition validateRedisSecret (cl : SecretGetter) (defSecretNamespace : string)
    (secretRef : v1.ObjectReference) : option error :=
  match cl defSecretNamespace secretRef with
  | Err err => Some err
  | Ok secret =>
      match v1.Data secret !! "URL" with
      | Some _ => None
      | None =>
          Some (errors.New "the storage config Secret doesn't have the `URL` field")
      end
  end.

(** Modelled from the spec: [RedisDeploymentOptions] of [pkg/limitador],
    which is not among the sources. It requires the secret reference and
    a secret with a [URL] key, and then hands the URL to the process
    through the environment variable, never inline. *)
Definition RedisDeploymentOptions (cl : SecretGetter) (defSecretNamespace : string)
    (redisObj : Redis.t) : result DeploymentStorageOptions :=
  match Redis.ConfigSecretRef redisObj with
  | None => Err (errors.New "there's no ConfigSecretRef set")
  | Some secretRef =>
      match validateRedisSecret cl defSecretNamespace secretRef with
      | Some err => Err err
      | None =>
          Ok {| Command := ["redis"; "$(LIMITADOR_OPERATOR_REDIS_URL)"];
                VolumeMounts := []; Volumes := [];
                DeploymentStrategy := StrategyUnset |}
      end
  end.

(** One optional [--flag value] pair appended to a command. *)
Definition appendFlag (command : list string) (flag : string) (v : option Z)
  : list string :=
  match v with
  | Some i => (command ++ [flag; Itoa i])%list
  | None => command
  end.

(** Modelled from the spec: [RedisCachedDeploymentOptions] of
    [pkg/limitador], of which only the test is among the sources. Same
    secret requirement as the redis backend; the command starts with
    [redis_cached] and the URL variable, and each option that is set is
    appended as a flag and its value, in the order ttl, ratio,
    flush-period, max-cached. *)
Definition RedisCachedDeploymentOptions (cl : SecretGetter)
    (defSecretNamespace : string) (redisCachedObj : RedisCached.t)
  : result DeploymentStorageOptions :=
  match RedisCached.ConfigSecretRef redisCachedObj with
  | None => Err (errors.New "there's no ConfigSecretRef set")
  | Some secretRef =>
      match validateRedisSecret cl defSecretNamespace secretRef with
      | Some err => Err err
      | None =>
          let command := ["redis_cached"; "$(LIMITADOR_OPERATOR_REDIS_URL)"] in
          let command :=
            match RedisCached.Options redisCachedObj with
            | None => command
            | Some options =>
                let command := appendFlag command "--ttl" (RedisCachedOptions.TTL options) in
                let command := appendFlag command "--ratio" (RedisCachedOptions.Ratio options) in
                let command := appendFlag command "--flush-period" (RedisCachedOptions.FlushPeriod options) in
                let command := appendFlag command "--max-cached" (RedisCachedOptions.MaxCached options) in
                command
            end in
          Ok {| Command := command;
                VolumeMounts := []; Volumes := [];
                DeploymentStrategy := StrategyUnset |}
      end
  end.

(** The fake client of the test: a list of secrets, looked up by name in
    the reference's namespace, or in the default one when the reference
    names none. *)
Definition fakeClient (objs : list v1.Secret) : SecretGetter :=
  λ defSecretNamespace secretRef,
    let ns := if decide (v1.Namespace secretRef = "") then defSecretNamespace
              else v1.Namespace secretRef in
    match
      List.find (λ s, bool_decide (metav1.Name (v1.ObjectMeta s) = v1.Name secretRef)
                      && bool_decide (metav1.Namespace (v1.ObjectMeta s) = ns)) objs
    with
    | Some s => Ok s
    | None => Err (StatusNotFound ("secrets " +:+ v1.Name secretRef +:+ " not found"))
    end.

End limitador.

(** ** controller-runtime and client-go types the controller handles *)

Module ctrl.
Record Result : Type := mkResult {
  Requeue : bool;
  RequeueAfter : Z;
}.
(** [ctrl.Result{}]. *)
Definition zero : Result := {| Requeue := false; RequeueAfter := 0 |}.

Record Request : Type := mkRequest {
  NamespacedName : types.NamespacedName;
}.
End ctrl.

#[global] Instance Result_eq_dec : EqDecision ctrl.Result.
Proof. solve_decision. Defined.

Module logr.
(** A logger, as far as control flow depends on it: whether
    [logger.V(1).Enabled()] holds. Log lines themselves are not modelled. *)
Record Logger : Type := mkLogger {
  V1Enabled : bool;
}.

(** A [context.Context], as far as the controller reads it: the logger
    it carries, if any. *)
Record Context : Type := mkContext {
  logger : option Logger;
}.

Definition NewContext (ctx : Context) (l : Logger) : Context :=
  {| logger := Some l |}.

Definition FromContext (ctx : Context) : result Logger :=
  match logger ctx with
  | Some l => Ok l
  | None => Err (errors.New "no logr.Logger was present")
  end.
End logr.

Module policyv1.
Record PodDisruptionBudget : Type := mkPodDisruptionBudget {
  ObjectMeta : metav1.ObjectMeta;
  Spec : limitadorv1alpha1.PodDisruptionBudgetType.t;
}.
End policyv1.

(** A call either returns or panics. *)
Inductive outcome (A : Type) : Type :=
  | Returns (a : A)
  | Panics (msg : string).
Arguments Returns {A} a.
Arguments Panics {A} msg.

Module reconcilers.

Inductive DeploymentMutateFn : Type :=
  | DeploymentReplicasMutator
  | DeploymentContainerListMutator
  | DeploymentImageMutator
  | DeploymentCommandMutator
  | DeploymentAffinityMutator
  | DeploymentResourcesMutator
  | DeploymentVolumesMutator
  | DeploymentVolumeMountsMutator
  | DeploymentEnvMutator.

(** The named mutators of [pkg/reconcilers] the controller passes on. *)
Inductive MutateFn : Type :=
  | CreateOnlyMutator
  | PodDisruptionBudgetMutator
  | DeploymentMutator (fns : list DeploymentMutateFn).

End reconcilers.

(** ** The controller's collaborators *)

Module controllers.
Import limitadorv1alpha1.

(** A value of interface type [client.Object] as the ConfigMap mutator
    receives it: a ConfigMap, or an object of another Go type. *)
Inductive clientObject : Type :=
  | ConfigMapObject (cm : v1.ConfigMap.t)
  | OtherObject (goType : string).

(** What one call of a ConfigMap mutator yields: the flag and error it
    returns, and the existing object as the call leaves it. *)
Definition mutation : Type := outcome (bool * option error * clientObject).

(** [limitador.DeploymentOptions] as [getDeploymentOptions] fills it. *)
Record DeploymentOptions (EnvVar : Type) : Type := mkDeploymentOptions {
  Command : list string;
  VolumeMounts : list string;
  Volumes : list string;
  DeploymentStrategy : limitador.DeploymentStrategyType;
  EnvVars : list EnvVar;
}.
Arguments mkDeploymentOptions {EnvVar}.
Arguments Command {EnvVar}.
Arguments VolumeMounts {EnvVar}.
Arguments Volumes {EnvVar}.
Arguments DeploymentStrategy {EnvVar}.
Arguments EnvVars {EnvVar}.

(** Everything the controller calls that is not in this file: the
    cluster client and the base reconciler's apply engine, the builders
    of [pkg/limitador], the upgrade helpers, the status reconciler and
    the YAML decoder. Calls that touch the cluster transform [World]. *)
Record Platform : Type := mkPlatform {
  World : Type;
  Service : Type;
  PersistentVolumeClaim : Type;
  Deployment : Type;
  EnvVar : Type;
  RateLimit : Type;
  RateLimit_eq_dec : EqDecision RateLimit;

  (* controller-runtime and the base reconciler *)
  Logger : logr.Logger;
  ClientGetLimitador : types.NamespacedName → World → result Limitador.t * World;
  ClientGetSecret : World → limitador.SecretGetter;
  GetResource :
    types.NamespacedName → World → result policyv1.PodDisruptionBudget * World;
  DeleteResource : policyv1.PodDisruptionBudget → World → option error * World;
  SetOwnerReference : ∀ T : Type, Limitador.t → T → T * option error;
  ReconcileService : Service → reconcilers.MutateFn → World → option error * World;
  ReconcilePersistentVolumeClaim :
    PersistentVolumeClaim → reconcilers.MutateFn → World → option error * World;
  ReconcileDeployment :
    Deployment → reconcilers.MutateFn → World → option error * World;
  ReconcileConfigMap :
    v1.ConfigMap.t → (clientObject → clientObject → mutation) →
    World → option error * World;
  ReconcilePodDisruptionBudget :
    policyv1.PodDisruptionBudget → reconcilers.MutateFn → World →
    option error * World;
  ObjectKeyFromObject : Deployment → types.NamespacedName;
  MarshalIndent : Limitador.t → result string;
  Unmarshal : string → result (option (list RateLimit));

  (* pkg/limitador *)
  LimitadorConfigFileName : string;
  limitador_Service : Limitador.t → Service;
  limitador_PVC : Limitador.t → PersistentVolumeClaim;
  limitador_Deployment : Limitador.t → DeploymentOptions EnvVar → Deployment;
  limitador_LimitsConfigMap : Limitador.t → result v1.ConfigMap.t;
  limitador_PodDisruptionBudget : Limitador.t → policyv1.PodDisruptionBudget;
  limitador_PodDisruptionBudgetName : Limitador.t → string;
  limitador_ValidatePDB : policyv1.PodDisruptionBudget → option error;
  DiskDeploymentOptions :
    Limitador.t → DiskSpec.t → result limitador.DeploymentStorageOptions;
  InMemoryDeploymentOptions : result limitador.DeploymentStorageOptions;
  DeploymentCommand :
    Limitador.t → limitador.DeploymentStorageOptions → list string;
  DeploymentVolumeMounts : limitador.DeploymentStorageOptions → list string;
  DeploymentVolumes :
    Limitador.t → limitador.DeploymentStorageOptions → list string;
  DeploymentEnvVar : option v1.ObjectReference → result (list EnvVar);

  (* pkg/upgrades *)
  UpgradeDeploymentTov070 :
    Limitador.t → types.NamespacedName → World →
    (ctrl.Result * option error) * World;
  UpgradeConfigMapTov070 : Limitador.t → World → option error * World;

  (* controllers/limitador_status.go *)
  reconcileStatus :
    Limitador.t → option error → World → (ctrl.Result * option error) * World;
}.

(** The per-kind reconcilers of spec reconciliation. *)
Inductive Step : Type :=
  | StepService
  | StepPVC
  | StepDeployment
  | StepLimitsConfigMap
  | StepPdb.

#[global] Instance Step_eq_dec : EqDecision Step.
Proof. solve_decision. Defined.

(** The ghost trace: which reconcilers were entered, and which cluster
    calls of the disruption-budget path and of status reconciliation
    were made, with their arguments. *)
Inductive Event : Type :=
  | Entered (s : Step)
  | StatusReconciled (specErr : option error)
  | Got (key : types.NamespacedName)
  | Deleted (pdb : policyv1.PodDisruptionBudget).

(** ** The controller *)

Section Controller.
Context (P : Platform).

(** The state a pass threads through its calls: the cluster and the
    ghost trace. *)
Record State : Type := mkState {
  world : World P;
  trace : list Event;
}.

Definition M (A : Type) : Type := State → A * State.

Definition ret {A} (a : A) : M A := λ s, (a, s).

Definition bind {A B} (m : M A) (k : A → M B) : M B :=
  λ s, let '(a, s) := m s in k a s.

(** A collaborator's call on the cluster. *)
Definition call {A} (f : World P → A * World P) : M A :=
  λ s, let '(a, w) := f (world s) in (a, {| world := w; trace := trace s |}).

(** A read of the cluster that leaves it as it is. *)
Definition peek {A} (f : World P → A) : M A := λ s, (f (world s), s).

Definition emit (e : Event) : M unit :=
  λ s, (tt, {| world := world s; trace := (trace s ++ [e])%list |}).

End Controller.

Arguments mkState {P}.
Arguments world {P}.
Arguments trace {P}.
Arguments ret {P A}.
Arguments bind {P A B}.
Arguments call {P A}.
Arguments peek {P A}.
Arguments emit {P}.

(** The controller is written with stdpp's monadic notation. *)
#[global] Instance M_ret (P : Platform) : MRet (M P) := @ret P.
#[global] Instance M_bind (P : Platform) : MBind (M P) :=
  λ A B k m, bind m k.

(** *** The functions of [limitador_controller.go]

    The functions follow the source statement by statement. Log lines
    are left out. The only additions are the records in the ghost
    trace: each per-kind reconciler first records that it was entered,
    [reconcilePdb] records its lookup and its delete, and [Reconcile]
    records the call of status reconciliation. *)

Section Functions.
Context (P : Platform).
#[local] Existing Instance RateLimit_eq_dec.

(** [cm.Data[limitador.LimitadorConfigFileName]]: reading a nil map or a
    missing key yields the empty string. *)
Definition payload (cm : v1.ConfigMap.t) : string :=
  match v1.ConfigMap.Data cm with
  | Some data => default "" (data !! LimitadorConfigFileName P)
  | None => ""
  end.

Definition mutateLimitsConfigMap (existingObj desiredObj : clientObject)
  : mutation :=
  match existingObj with
  | OtherObject goType =>
      Returns (false, Some (ErrorString (goType +:+ " is not a *v1.ConfigMap")),
               existingObj)
  | ConfigMapObject existing =>
  match desiredObj with
  | OtherObject goType =>
      Returns (false, Some (ErrorString (goType +:+ " is not a *v1.ConfigMap")),
               existingObj)
  | ConfigMapObject desired =>
  let updated := false in
  (* Limits in limitador.LimitadorConfigFileName field *)
  match Unmarshal P (payload desired) with
  | Err err => Returns (false, Some err, existingObj)
  | Ok desiredLimits =>
  let existingLimits :=
    match Unmarshal P (payload existing) with
    | Err _ => None
    | Ok existingLimits => existingLimits
    end in
  (* reflect.DeepEqual tells a nil slice from an empty one *)
  if bool_decide (desiredLimits ≠ existingLimits) then
    match v1.ConfigMap.Data existing with
    | None => Panics "assignment to entry in nil map"
    | Some data =>
        let existing :=
          {| v1.ConfigMap.ObjectMeta := v1.ConfigMap.ObjectMeta existing;
             v1.ConfigMap.Data :=
               Some (<[LimitadorConfigFileName P := payload desired]> data) |} in
        Returns (true, None, ConfigMapObject existing)
    end
  else Returns (updated, None, existingObj)
  end end end.

Definition getDeploymentStorageOptions (ctx : logr.Context) (limObj : Limitador.t)
  : M P (result limitador.DeploymentStorageOptions) :=
  match LimitadorSpec.Storage (Limitador.Spec limObj) with
  | Some storage =>
      match Storage.Redis storage with
      | Some redis =>
          peek (λ w, limitador.RedisDeploymentOptions
                       (ClientGetSecret P w) (Limitador.Namespace limObj) redis)
      | None =>
      match Storage.RedisCached storage with
      | Some redisCached =>
          peek (λ w, limitador.RedisCachedDeploymentOptions
                       (ClientGetSecret P w) (Limitador.Namespace limObj)
                       redisCached)
      | None =>
      match Storage.Disk storage with
      | Some disk => mret (DiskDeploymentOptions P limObj disk)
      | None =>
          (* if all of them are nil, fallback to InMemory *)
          mret (InMemoryDeploymentOptions P)
      end end end
  | None => mret (InMemoryDeploymentOptions P)
  end.

Definition getDeploymentEnvVar (limObj : Limitador.t) : result (list (EnvVar P)) :=
  match LimitadorSpec.Storage (Limitador.Spec limObj) with
  | Some storage =>
      match Storage.Redis storage with
      | Some redis => DeploymentEnvVar P (Redis.ConfigSecretRef redis)
      | None =>
      match Storage.RedisCached storage with
      | Some redisCached =>
          DeploymentEnvVar P (RedisCached.ConfigSecretRef redisCached)
      | None => Ok []
      end end
  | None => Ok []
  end.

Definition getDeploymentOptions (ctx : logr.Context) (limObj : Limitador.t)
  : M P (result (DeploymentOptions (EnvVar P))) :=
  r ← getDeploymentStorageOptions ctx limObj;
  match r with
  | Err err => mret (Err err)
  | Ok deploymentStorageOptions =>
      match getDeploymentEnvVar limObj with
      | Err err => mret (Err err)
      | Ok envVar =>
          mret (Ok {|
            Command := DeploymentCommand P limObj deploymentStorageOptions;
            VolumeMounts := DeploymentVolumeMounts P deploymentStorageOptions;
            Volumes := DeploymentVolumes P limObj deploymentStorageOptions;
            DeploymentStrategy :=
              limitador.DeploymentStrategy deploymentStorageOptions;
            EnvVars := envVar |})
      end
  end.

Definition reconcileService (ctx : logr.Context) (limitadorObj : Limitador.t)
  : M P (option error) :=
  emit (Entered StepService);;
  match logr.FromContext ctx with
  | Err err => mret (Some err)
  | Ok logger =>
  let limitadorService := limitador_Service P limitadorObj in
  (* controller reference *)
  let '(limitadorService, err) :=
    SetOwnerReference P _ limitadorObj limitadorService in
  match err with
  | Some err => mret (Some err)
  | None =>
  err ← call (ReconcileService P limitadorService reconcilers.CreateOnlyMutator);
  match err with
  | Some err => mret (Some err)
  | None => mret None
  end end end.

Definition reconcilePVC (ctx : logr.Context) (limitadorObj : Limitador.t)
  : M P (option error) :=
  emit (Entered StepPVC);;
  match logr.FromContext ctx with
  | Err err => mret (Some err)
  | Ok logger =>
  let pvc := limitador_PVC P limitadorObj in
  (* controller reference *)
  let '(pvc, err) := SetOwnerReference P _ limitadorObj pvc in
  match err with
  | Some err => mret (Some err)
  | None =>
  (* Not reconciling updates PVCs for now. *)
  err ← call (ReconcilePersistentVolumeClaim P pvc reconcilers.CreateOnlyMutator);
  match err with
  | Some err => mret (Some err)
  | None => mret None
  end end end.

Definition reconcileDeployment (ctx : logr.Context) (limitadorObj : Limitador.t)
  : M P (ctrl.Result * option error) :=
  emit (Entered StepDeployment);;
  match logr.FromContext ctx with
  | Err err => mret (ctrl.zero, Some err)
  | Ok logger =>
  r ← getDeploymentOptions ctx limitadorObj;
  match r with
  | Err err => mret (ctrl.zero, Some err)
  | Ok deploymentOptions =>
  let deploymentMutators : list reconcilers.DeploymentMutateFn := [] in
  let deploymentMutators :=
    match LimitadorSpec.Replicas (Limitador.Spec limitadorObj) with
    | Some _ => (deploymentMutators ++ [reconcilers.DeploymentReplicasMutator])%list
    | None => deploymentMutators
    end in
  let deploymentMutators :=
    (deploymentMutators ++
      [reconcilers.DeploymentContainerListMutator;
       reconcilers.DeploymentImageMutator;
       reconcilers.DeploymentCommandMutator;
       reconcilers.DeploymentAffinityMutator;
       reconcilers.DeploymentResourcesMutator;
       reconcilers.DeploymentVolumesMutator;
       reconcilers.DeploymentVolumeMountsMutator;
       reconcilers.DeploymentEnvMutator])%list in
  let deployment := limitador_Deployment P limitadorObj deploymentOptions in
  (* controller reference *)
  let '(deployment, err) := SetOwnerReference P _ limitadorObj deployment in
  match err with
  | Some err => mret (ctrl.zero, Some err)
  | None =>
  err ← call (ReconcileDeployment P deployment
                (reconcilers.DeploymentMutator deploymentMutators));
  match err with
  | Some err => mret (ctrl.zero, Some err)
  | None =>
  (* TODO: To be deleted when the upgrade path is no longer needed. *)
  call (UpgradeDeploymentTov070 P limitadorObj (ObjectKeyFromObject P deployment))
  end end end end.

Definition reconcileLimitsConfigMap (ctx : logr.Context)
    (limitadorObj : Limitador.t) : M P (option error) :=
  emit (Entered StepLimitsConfigMap);;
  match logr.FromContext ctx with
  | Err err => mret (Some err)
  | Ok logger =>
  match limitador_LimitsConfigMap P limitadorObj with
  | Err err => mret (Some err)
  | Ok limitsConfigMap =>
  (* controller reference *)
  let '(limitsConfigMap, err) :=
    SetOwnerReference P _ limitadorObj limitsConfigMap in
  match err with
  | Some err => mret (Some err)
  | None =>
  err ← call (ReconcileConfigMap P limitsConfigMap mutateLimitsConfigMap);
  match err with
  | Some err => mret (Some err)
  | None =>
  (* TODO: To be deleted when the upgrade path is no longer needed. *)
  err ← call (UpgradeConfigMapTov070 P limitadorObj);
  match err with
  | Some err => mret (Some err)
  | None => mret None
  end end end end end.

Definition reconcilePdb (ctx : logr.Context) (limitadorObj : Limitador.t)
  : M P (option error) :=
  emit (Entered StepPdb);;
  match logr.FromContext ctx with
  | Err err => mret (Some err)
  | Ok logger =>
  match LimitadorSpec.PodDisruptionBudget (Limitador.Spec limitadorObj) with
  | None =>
      let key :=
        {| types.Namespace := Limitador.Namespace limitadorObj;
           types.Name := limitador_PodDisruptionBudgetName P limitadorObj |} in
      emit (Got key);;
      r ← call (GetResource P key);
      match r with
      | Err err => if errors.IsNotFound err then mret None else mret (Some err)
      | Ok pdb =>
          match metav1.DeletionTimestamp (policyv1.ObjectMeta pdb) with
          | None =>
              emit (Deleted pdb);;
              err ← call (DeleteResource P pdb);
              match err with
              | Some err => mret (Some err)
              | None => mret None
              end
          | Some _ => mret None
          end
      end
  | Some _ =>
      let pdb := limitador_PodDisruptionBudget P limitadorObj in
      match limitador_ValidatePDB P pdb with
      | Some err => mret (Some err)
      | None =>
      (* controller reference *)
      let '(pdb, err) := SetOwnerReference P _ limitadorObj pdb in
      match err with
      | Some err => mret (Some err)
      | None =>
      err ← call (ReconcilePodDisruptionBudget P pdb
                    reconcilers.PodDisruptionBudgetMutator);
      match err with
      | Some err => mret (Some err)
      | None => mret None
      end end end
  end end.

Definition reconcileSpec (ctx : logr.Context) (limitadorObj : Limitador.t)
  : M P (ctrl.Result * option error) :=
  err ← reconcileService ctx limitadorObj;
  match err with
  | Some err => mret (ctrl.zero, Some err)
  | None =>
  err ← reconcilePVC ctx limitadorObj;
  match err with
  | Some err => mret (ctrl.zero, Some err)
  | None =>
  '(result, err) ← reconcileDeployment ctx limitadorObj;
  if ctrl.Requeue result then mret (result, None) else
  match err with
  | Some err => mret (ctrl.zero, Some err)
  | None =>
  err ← reconcileLimitsConfigMap ctx limitadorObj;
  match err with
  | Some err => mret (ctrl.zero, Some err)
  | None =>
  err ← reconcilePdb ctx limitadorObj;
  match err with
  | Some err => mret (ctrl.zero, Some err)
  | None => mret (ctrl.zero, None)
  end end end end end.

Definition Reconcile (eventCtx : logr.Context) (req : ctrl.Request)
  : M P (ctrl.Result * option error) :=
  let logger := Logger P in
  let ctx := logr.NewContext eventCtx logger in
  (* Delete Limitador deployment and service if needed *)
  r ← call (ClientGetLimitador P (ctrl.NamespacedName req));
  match r with
  | Err err =>
      if errors.IsNotFound err then mret (ctrl.zero, None)
      else mret (ctrl.zero, Some err)
  | Ok limitadorObj =>
  let dumped :=
    if logr.V1Enabled logger then
      match MarshalIndent P limitadorObj with
      | Err err => Some err
      | Ok jsonData => None
      end
    else None in
  match dumped with
  | Some err => mret (ctrl.zero, Some err)
  | None =>
  match Limitador.GetDeletionTimestamp limitadorObj with
  | Some _ => mret (ctrl.zero, None)
  | None =>
  '(specResult, specErr) ← reconcileSpec ctx limitadorObj;
  emit (StatusReconciled specErr);;
  '(statusResult, statusErr) ← call (reconcileStatus P limitadorObj specErr);
  match specErr with
  | Some specErr => mret (ctrl.zero, Some specErr)
  | None =>
  match statusErr with
  | Some statusErr => mret (ctrl.zero, Some statusErr)
  | None =>
  if ctrl.Requeue specResult then mret (specResult, None) else
  if ctrl.Requeue statusResult then mret (statusResult, None) else
  mret (ctrl.zero, None)
  end end end end end.

End Functions.

End controllers.

(** ** A scripted platform

    A test double of the collaborators, in the manner of the fake client
    of the repository's tests: the cluster holds disruption budgets by
    namespace and name, and every other collaborator answers from a
    script. It gives the properties below concrete passes to run on. *)

Module fake.
Import limitadorv1alpha1 controllers.

(** A rate-limit rule as the ConfigMap carries it. *)
Record RateLimit : Type := mkRateLimit {
  Namespace : string;
  MaxValue : Z;
  Seconds : Z;
  Conditions : option (list string);
  Variables : option (list string);
}.

#[global] Instance RateLimit_eq_dec : EqDecision RateLimit.
Proof. solve_decision. Defined.

(** The decoder on four documents, where it answers as
    [sigs.k8s.io/yaml] does: the empty document and [null] leave the
    slice nil, [[]] makes it empty, a one-rule flow sequence yields that
    rule, and a mapping cannot be decoded into a slice. Any other
    document is outside this double and is rejected. *)
Definition Unmarshal (doc : string) : result (option (list RateLimit)) :=
  if bool_decide (doc = "") || bool_decide (doc = "null") then Ok None
  else if bool_decide (doc = "[]") then Ok (Some [])
  else if bool_decide (doc = "[{namespace: test, max_value: 10, seconds: 60}]")
  then Ok (Some [mkRateLimit "test" 10 60 None None])
  else Err (ErrorString "error unmarshaling JSON").

Record Script : Type := mkScript {
  declaration : result Limitador.t;
  verbose : bool;
  marshal : result string;
  ownerReference : option error;
  service : option error;
  pvc : option error;
  deployment : option error;
  upgradeDeployment : ctrl.Result * option error;
  configMap : option error;
  upgradeConfigMap : option error;
  budget : option error;
  deleteBudget : option error;
  status : option error → ctrl.Result * option error;
  secrets : list v1.Secret;
}.

Definition budgets : Type := gmap (string * string) policyv1.PodDisruptionBudget.

Definition keyOf (key : types.NamespacedName) : string * string :=
  (types.Namespace key, types.Name key).

Definition metaOf (name ns : string) : metav1.ObjectMeta :=
  {| metav1.Name := name; metav1.Namespace := ns;
     metav1.Annotations := None; metav1.DeletionTimestamp := None |}.

Definition platform (sc : Script) : Platform := {|
  World := budgets;
  Service := unit;
  PersistentVolumeClaim := unit;
  Deployment := unit;
  EnvVar := string;
  controllers.RateLimit := RateLimit;
  controllers.RateLimit_eq_dec := RateLimit_eq_dec;
  Logger := {| logr.V1Enabled := verbose sc |};
  ClientGetLimitador := λ _ w, (declaration sc, w);
  ClientGetSecret := λ _, limitador.fakeClient (secrets sc);
  GetResource := λ key w,
    match w !! keyOf key with
    | Some pdb => (Ok pdb, w)
    | None => (Err (StatusNotFound "poddisruptionbudgets not found"), w)
    end;
  DeleteResource := λ pdb w,
    match deleteBudget sc with
    | Some err => (Some err, w)
    | None =>
        (None, delete (metav1.Namespace (policyv1.ObjectMeta pdb),
                       metav1.Name (policyv1.ObjectMeta pdb)) w)
    end;
  SetOwnerReference := λ T _ obj, (obj, ownerReference sc);
  ReconcileService := λ _ _ w, (service sc, w);
  ReconcilePersistentVolumeClaim := λ _ _ w, (pvc sc, w);
  ReconcileDeployment := λ _ _ w, (deployment sc, w);
  ReconcileConfigMap := λ _ _ w, (configMap sc, w);
  ReconcilePodDisruptionBudget := λ pdb _ w,
    match budget sc with
    | Some err => (Some err, w)
    | None =>
        (None, <[(metav1.Namespace (policyv1.ObjectMeta pdb),
                  metav1.Name (policyv1.ObjectMeta pdb)) := pdb]> w)
    end;
  ObjectKeyFromObject := λ _, types.mkNamespacedName "" "limitador";
  MarshalIndent := λ _, marshal sc;
  controllers.Unmarshal := Unmarshal;
  LimitadorConfigFileName := "limitador-config.yaml";
  limitador_Service := λ _, tt;
  limitador_PVC := λ _, tt;
  limitador_Deployment := λ _ _, tt;
  limitador_LimitsConfigMap := λ l,
    Ok {| v1.ConfigMap.ObjectMeta :=
            metaOf "limits-config" (Limitador.Namespace l);
          v1.ConfigMap.Data := Some {[ "limitador-config.yaml" := "[]" ]} |};
  limitador_PodDisruptionBudget := λ l,
    {| policyv1.ObjectMeta := metaOf "limitador-pdb" (Limitador.Namespace l);
       policyv1.Spec :=
         default (PodDisruptionBudgetType.mk None None)
                 (LimitadorSpec.PodDisruptionBudget (Limitador.Spec l)) |};
  limitador_PodDisruptionBudgetName := λ _, "limitador-pdb";
  limitador_ValidatePDB := λ _, None;
  DiskDeploymentOptions := λ _ _,
    Ok (limitador.mkDeploymentStorageOptions
          ["disk"; "/var/lib/limitador/data"] ["storage"] ["storage"]
          limitador.RecreateDeploymentStrategyType);
  InMemoryDeploymentOptions :=
    Ok (limitador.mkDeploymentStorageOptions
          ["memory"] [] [] limitador.RollingUpdateDeploymentStrategyType);
  DeploymentCommand := λ _ o, limitador.Command o;
  DeploymentVolumeMounts := limitador.VolumeMounts;
  DeploymentVolumes := λ _ o, limitador.Volumes o;
  DeploymentEnvVar := λ _, Ok ["LIMITADOR_OPERATOR_REDIS_URL"];
  UpgradeDeploymentTov070 := λ _ _ w, (upgradeDeployment sc, w);
  UpgradeConfigMapTov070 := λ _ w, (upgradeConfigMap sc, w);
  reconcileStatus := λ _ specErr w, (status sc specErr, w);
|}.

(** A declaration in namespace [some-ns] with the given specification. *)
Definition limitadorObj (spec : LimitadorSpec.t) : Limitador.t :=
  {| Limitador.ObjectMeta := metaOf "limitador" "some-ns";
     Limitador.Spec := spec |}.

(** A script: every collaborator succeeds except as the arguments say. *)
Definition script (spec : LimitadorSpec.t) (service : option error)
    (upgradeDeployment : ctrl.Result * option error) : Script := {|
  declaration := Ok (limitadorObj spec);
  verbose := true;
  marshal := Ok "{}";
  ownerReference := None;
  service := service;
  pvc := None;
  deployment := None;
  upgradeDeployment := upgradeDeployment;
  configMap := None;
  upgradeConfigMap := None;
  budget := None;
  deleteBudget := None;
  status := λ _, (ctrl.zero, None);
  secrets := [];
|}.

(** The script in which every collaborator succeeds. *)
Definition quiet (spec : LimitadorSpec.t) : Script :=
  script spec None (ctrl.zero, None).

(** Declarations: no storage and no budget policy; all three backends
    at once; redis-cached without a secret reference. *)
Definition plain : LimitadorSpec.t := LimitadorSpec.mk None None None.

Definition redisNoRef : Redis.t := Redis.mk None.

Definition allBackends : Storage.t :=
  Storage.mk (Some redisNoRef) (Some (RedisCached.mk None None))
             (Some DiskSpec.mk).

Definition cachedNoRef : LimitadorSpec.t :=
  LimitadorSpec.mk None
    (Some (Storage.mk None (Some (RedisCached.mk None None)) None)) None.

(** Scripts: the Service apply fails; the upgrade helper of the
    Deployment reconciler asks for a requeue and also returns an error. *)
Definition boom : error := ErrorString "boom".

Definition serviceFails : Script := script plain (Some boom) (ctrl.zero, None).

Definition requeue : ctrl.Result :=
  {| ctrl.Requeue := true; ctrl.RequeueAfter := 0 |}.

Definition requeueWithError : Script := script plain None (requeue, Some boom).

(** A cluster holding the budget of an earlier pass. *)
Definition oldBudget : policyv1.PodDisruptionBudget :=
  {| policyv1.ObjectMeta := metaOf "limitador-pdb" "some-ns";
     policyv1.Spec := PodDisruptionBudgetType.mk (Some 1) None |}.

Definition withOldBudget : budgets := {[ ("some-ns", "limitador-pdb") := oldBudget ]}.

(** ConfigMaps carrying a given rule-list document, or no data map. *)
Definition limitsConfigMap (doc : option string) : v1.ConfigMap.t :=
  {| v1.ConfigMap.ObjectMeta := metaOf "limits-config" "some-ns";
     v1.ConfigMap.Data := (λ d, {[ "limitador-config.yaml" := d ]}) <$> doc |}.

(** The platform in which every collaborator succeeds, and contexts. *)
Definition cluster : Platform := platform (quiet plain).

Definition brokenExisting : v1.ConfigMap.t := limitsConfigMap (Some "limits: broken").
Definition nullDesired : v1.ConfigMap.t := limitsConfigMap (Some "null").
Definition emptyDesired : v1.ConfigMap.t := limitsConfigMap (Some "[]").
Definition noData : v1.ConfigMap.t := limitsConfigMap None.

(** The context [Reconcile] hands to its steps. *)
Definition passContext (P : Platform) : logr.Context :=
  logr.NewContext {| logr.logger := None |} (Logger P).

Definition request : ctrl.Request :=
  {| ctrl.NamespacedName := types.mkNamespacedName "some-ns" "limitador" |}.

Definition background : logr.Context := {| logr.logger := None |}.

Definition start (P : Platform) (w : World P) : State P :=
  {| world := w; trace := [] |}.

(** The secret of the test, with and without its [URL] key. *)
Definition redisSecret : v1.Secret :=
  {| v1.ObjectMeta := metaOf "redisSecret" "some-ns";
     v1.Data := {[ "URL" := "redis://example.com:6379" ]} |}.

Definition emptySecret : v1.Secret :=
  {| v1.ObjectMeta := metaOf "redisSecret" "some-ns"; v1.Data := ∅ |}.

End fake.

(** ** The design document's formulations

    Definitions that follow the words of the design document, to be
    compared with the functions above. *)

Module design.
Import limitadorv1alpha1 limitador controllers.

(** The flags of the cached backend in their fixed order, each with the
    option it renders. *)
Definition flagTable (options : RedisCachedOptions.t) : list (string * option Z) :=
  [("--ttl", RedisCachedOptions.TTL options);
   ("--ratio", RedisCachedOptions.Ratio options);
   ("--flush-period", RedisCachedOptions.FlushPeriod options);
   ("--max-cached", RedisCachedOptions.MaxCached options)].

(** One [--flag value] pair per option that is set, none for the
    others. *)
Definition renderFlags (table : list (string * option Z)) : list string :=
  flat_map (λ '(flag, v), match v with
                          | Some i => [flag; Itoa i]
                          | None => []
                          end) table.

Definition cachedCommand (options : option RedisCachedOptions.t) : list string :=
  ["redis_cached"; "$(LIMITADOR_OPERATOR_REDIS_URL)"]
    ++ from_option (λ o, renderFlags (flagTable o)) [] options.

(** The secret reference of the declared backend when that backend, by
    the priority order, is redis or redis-cached. *)
Definition declaredSecretRef (limObj : Limitador.t)
  : option (option v1.ObjectReference) :=
  storage ← LimitadorSpec.Storage (Limitador.Spec limObj);
  match Storage.Redis storage, Storage.RedisCached storage with
  | Some redis, _ => Some (Redis.ConfigSecretRef redis)
  | None, Some redisCached => Some (RedisCached.ConfigSecretRef redisCached)
  | None, None => None
  end.

(** "First non-nil wins": the first branch of a priority list whose
    field is set, or else the fallback. *)
Definition firstNonNil {A} (branches : list (option A)) (fallback : A) : A :=
  default fallback (head (omap id branches)).

(** Storage-backend resolution as the design document words it: redis,
    then redis-cached, then disk, else in-memory. *)
Definition resolve (P : Platform) (limObj : Limitador.t)
  : M P (result DeploymentStorageOptions) :=
  let inMemory : M P (result DeploymentStorageOptions) :=
    mret (InMemoryDeploymentOptions P) in
  match LimitadorSpec.Storage (Limitador.Spec limObj) with
  | None => inMemory
  | Some storage =>
      firstNonNil
        [ (λ redis, peek (λ w, RedisDeploymentOptions (ClientGetSecret P w)
                                 (Limitador.Namespace limObj) redis))
            <$> Storage.Redis storage;
          (λ redisCached,
             peek (λ w, RedisCachedDeploymentOptions (ClientGetSecret P w)
                          (Limitador.Namespace limObj) redisCached))
            <$> Storage.RedisCached storage;
          (λ disk, mret (DiskDeploymentOptions P limObj disk))
            <$> Storage.Disk storage ]
        inMemory
  end.

(** The rule list a ConfigMap carries, as the mutator compares it: the
    deserialized payload, and the nil list when it does not
    deserialize. *)
Definition carried (P : Platform) (cm : v1.ConfigMap.t)
  : option (list (RateLimit P)) :=
  match Unmarshal P (payload P cm) with
  | Ok limits => limits
  | Err _ => None
  end.

(** A ConfigMap with its rule-list payload replaced. *)
Definition overwritten (P : Platform) (existing : v1.ConfigMap.t)
    (data : gmap string string) (doc : string) : v1.ConfigMap.t :=
  {| v1.ConfigMap.ObjectMeta := v1.ConfigMap.ObjectMeta existing;
     v1.ConfigMap.Data := Some (<[LimitadorConfigFileName P := doc]> data) |}.

(** The reconcilers a trace shows as entered, in order. *)
Definition entered (t : list Event) : list Step :=
  omap (λ e, match e with Entered s => Some s | _ => None end) t.

(** What a call adds to the trace: the trace after it, without the
    trace before it. *)
Definition added {P : Platform} (s s' : State P) : list Event :=
  drop (length (trace s)) (trace s').

(** The identity under which a declaration's disruption budget lives:
    the declaration's namespace and the derived budget name. *)
Definition budgetKey (P : Platform) (limitadorObj : Limitador.t)
  : types.NamespacedName :=
  {| types.Namespace := Limitador.Namespace limitadorObj;
     types.Name := limitador_PodDisruptionBudgetName P limitadorObj |}.

(** The fixed order of spec reconciliation. *)
Definition specOrder : list Step :=
  [StepService; StepPVC; StepDeployment; StepLimitsConfigMap; StepPdb].

End design.

(** ** pkg/helpers: describing an object *)

Module schema.
Record GroupVersionKind : Type := mkGroupVersionKind {
  Group : string;
  Version : string;
  Kind : string;
}.
End schema.

Module objectinfo.

(** The accessors of [client.Object] that [ObjectInfo] calls:
    [GetObjectKind().GroupVersionKind()] and [GetName()]. *)
Class Described (T : Type) : Type := {
  GroupVersionKind : T → schema.GroupVersionKind;
  GetName : T → string;
}.

(** [fmt.Sprintf("%s/%s", kind, name)]. *)
Definition ObjectInfo `{Described T} (obj : T) : string :=
  schema.Kind (GroupVersionKind obj) +:+ "/" +:+ GetName obj.

(** The separator, as a character. *)
Definition slash : Ascii.ascii :=
  Eval cbv in match "/" with String c _ => c | EmptyString => Ascii.zero end.

(** Whether a string contains the separator. *)
Fixpoint hasSlash (s : string) : bool :=
  match s with
  | EmptyString => false
  | String c s => bool_decide (c = slash) || hasSlash s
  end.

(** A kinded object for the examples: a Deployment called [limitador]. *)
#[global] Instance pair_Described : Described (string * string) := {|
  GroupVersionKind := λ o, schema.mkGroupVersionKind "apps" "v1" o.1;
  GetName := snd;
|}.

End objectinfo.

(** ** A recording platform

    A platform wrapped so that the calls [limitador_controller.go]
    itself makes on the cluster are written to a log kept beside the
    cluster: the fetch of the declaration, the five applies with the
    mutator they were given, the two upgrade helpers, the lookup and the
    delete of the budget, and status reconciliation. The wrapped calls
    answer as the platform's own do.

    One cluster read is outside the log. The redis resolvers of
    [pkg/limitador] are handed the client and fetch the declared Secret
    with it; the controller only passes the client on, and in this
    model the resolvers read the cluster as it stands ([peek]), which
    leaves the state, and so the log, as it was. A declaration whose
    backend is disk or in-memory has no such read. *)

Module spy.
Import limitadorv1alpha1 controllers.

Inductive Call : Type :=
  | GetLimitador (key : types.NamespacedName)
  | ApplyService (mutator : reconcilers.MutateFn)
  | ApplyPersistentVolumeClaim (mutator : reconcilers.MutateFn)
  | ApplyDeployment (mutator : reconcilers.MutateFn)
  | UpgradeDeployment
  | ApplyConfigMap
  | UpgradeConfigMap
  | GetBudget (key : types.NamespacedName)
  | DeleteBudget
  | ApplyBudget (mutator : reconcilers.MutateFn)
  | Status (specErr : option error).

(** Run a call on the cluster and append its record to the log. *)
Definition logged {W A : Type} (c : Call) (f : W → A * W)
  : W * list Call → A * (W * list Call) :=
  λ wl, let '(a, w) := f wl.1 in (a, (w, (wl.2 ++ [c])%list)).

Definition platform (P : Platform) : Platform := {|
  World := World P * list Call;
  Service := Service P;
  PersistentVolumeClaim := PersistentVolumeClaim P;
  Deployment := Deployment P;
  EnvVar := EnvVar P;
  RateLimit := RateLimit P;
  RateLimit_eq_dec := RateLimit_eq_dec P;
  Logger := Logger P;
  ClientGetLimitador := λ key, logged (GetLimitador key) (ClientGetLimitador P key);
  ClientGetSecret := λ wl, ClientGetSecret P wl.1;
  GetResource := λ key, logged (GetBudget key) (GetResource P key);
  DeleteResource := λ pdb, logged DeleteBudget (DeleteResource P pdb);
  SetOwnerReference := SetOwnerReference P;
  ReconcileService := λ svc m, logged (ApplyService m) (ReconcileService P svc m);
  ReconcilePersistentVolumeClaim := λ pvc m,
    logged (ApplyPersistentVolumeClaim m) (ReconcilePersistentVolumeClaim P pvc m);
  ReconcileDeployment := λ d m,
    logged (ApplyDeployment m) (ReconcileDeployment P d m);
  ReconcileConfigMap := λ cm f, logged ApplyConfigMap (ReconcileConfigMap P cm f);
  ReconcilePodDisruptionBudget := λ pdb m,
    logged (ApplyBudget m) (ReconcilePodDisruptionBudget P pdb m);
  ObjectKeyFromObject := ObjectKeyFromObject P;
  MarshalIndent := MarshalIndent P;
  Unmarshal := Unmarshal P;
  LimitadorConfigFileName := LimitadorConfigFileName P;
  limitador_Service := limitador_Service P;
  limitador_PVC := limitador_PVC P;
  limitador_Deployment := limitador_Deployment P;
  limitador_LimitsConfigMap := limitador_LimitsConfigMap P;
  limitador_PodDisruptionBudget := limitador_PodDisruptionBudget P;
  limitador_PodDisruptionBudgetName := limitador_PodDisruptionBudgetName P;
  limitador_ValidatePDB := limitador_ValidatePDB P;
  DiskDeploymentOptions := DiskDeploymentOptions P;
  InMemoryDeploymentOptions := InMemoryDeploymentOptions P;
  DeploymentCommand := DeploymentCommand P;
  DeploymentVolumeMounts := DeploymentVolumeMounts P;
  DeploymentVolumes := DeploymentVolumes P;
  DeploymentEnvVar := DeploymentEnvVar P;
  UpgradeDeploymentTov070 := λ o key,
    logged UpgradeDeployment (UpgradeDeploymentTov070 P o key);
  UpgradeConfigMapTov070 := λ o, logged UpgradeConfigMap (UpgradeConfigMapTov070 P o);
  reconcileStatus := λ o specErr, logged (Status specErr) (reconcileStatus P o specErr);
|}.

(** The log once the declaration has been fetched. *)
Definition fetched {P : Platform} (req : ctrl.Request)
    (s : State (platform P)) : list Call :=
  ((world s).2 ++ [GetLimitador (ctrl.NamespacedName req)])%list.

(** The calls a state's log gained over an earlier log. *)
Definition calls {P : Platform} (before : list Call) (s : State (platform P))
  : list Call :=
  drop (length before) (world s).2.

(** The field mutators the Deployment is applied with: the replica
    count only when the declaration sets one, then the fixed eight. *)
Definition deploymentMutators (o : Limitador.t)
  : list reconcilers.DeploymentMutateFn :=
  (match LimitadorSpec.Replicas (Limitador.Spec o) with
   | Some _ => [reconcilers.DeploymentReplicasMutator]
   | None => []
   end
   ++ [reconcilers.DeploymentContainerListMutator;
       reconcilers.DeploymentImageMutator;
       reconcilers.DeploymentCommandMutator;
       reconcilers.DeploymentAffinityMutator;
       reconcilers.DeploymentResourcesMutator;
       reconcilers.DeploymentVolumesMutator;
       reconcilers.DeploymentVolumeMountsMutator;
       reconcilers.DeploymentEnvMutator])%list.

(** The cluster calls of a complete spec reconciliation, in order. *)
Definition planned (P : Platform) (o : Limitador.t) : list Call :=
  ([ApplyService reconcilers.CreateOnlyMutator;
    ApplyPersistentVolumeClaim reconcilers.CreateOnlyMutator;
    ApplyDeployment (reconcilers.DeploymentMutator (deploymentMutators o));
    UpgradeDeployment;
    ApplyConfigMap;
    UpgradeConfigMap]
   ++ match LimitadorSpec.PodDisruptionBudget (Limitador.Spec o) with
      | Some _ => [ApplyBudget reconcilers.PodDisruptionBudgetMutator]
      | None => [GetBudget (design.budgetKey P o); DeleteBudget]
      end)%list.

End spy.

(** ** Shapes of traces and results *)

Module shape.
Import controllers.

Definition isStatus (e : Event) : bool :=
  match e with StatusReconciled _ => true | _ => false end.

(** The result pairs a pass may return: an error comes with the empty
    result, and a result that is not empty asks for a requeue. *)
Definition wellFormed (out : ctrl.Result * option error) : Prop :=
  (is_Some out.2 → out.1 = ctrl.zero)
  ∧ (out.1 ≠ ctrl.zero → ctrl.Requeue out.1 = true ∧ out.2 = None).

End shape.

(** ** Sample objects and stores *)

Module samples.

Definition metaA : metav1.ObjectMeta :=
  metav1.mkObjectMeta "a" "some-ns" (Some 1%positive) None.
Definition metaC : metav1.ObjectMeta :=
  metav1.mkObjectMeta "c" "some-ns" (Some 2%positive) None.
Definition untagged : metav1.ObjectMeta := fake.metaOf "limitador" "some-ns".
Definition tagged : metav1.ObjectMeta :=
  metav1.mkObjectMeta "limitador" "some-ns" (Some 1%positive) None.

Definition owned : gomap.store := {[ 1%positive := {[ "owner" := "ops" ]} ]}.
Definition ownedTagged : gomap.store :=
  {[ 1%positive := <[ helpers.DeleteTagAnnotation := "true" ]> {[ "owner" := "ops" ]} ]}.
Definition two : gomap.store := {[ 1%positive := ∅; 2%positive := ∅ ]}.
Definition twoTagged : gomap.store :=
  <[ 1%positive := {[ helpers.DeleteTagAnnotation := "true" ]} ]> two.
Definition onlyTag : gomap.store :=
  {[ 1%positive := {[ helpers.DeleteTagAnnotation := "true" ]} ]}.

(** A cluster without the declaration. *)
Definition missing : fake.Script :=
  fake.mkScript (Err (StatusNotFound "limitadors not found")) true (Ok "{}")
    None None None None (ctrl.zero, None) None None None None
    (λ _, (ctrl.zero, None)) [].

(** A declaration with a disruption-budget policy. *)
Definition withPolicy : limitadorv1alpha1.LimitadorSpec.t :=
  limitadorv1alpha1.LimitadorSpec.mk None None
    (Some (limitadorv1alpha1.PodDisruptionBudgetType.mk (Some 1) None)).

Definition guarded : controllers.Platform := fake.platform (fake.quiet withPolicy).

Definition desiredBudget : policyv1.PodDisruptionBudget :=
  {| policyv1.ObjectMeta := fake.metaOf "limitador-pdb" "some-ns";
     policyv1.Spec := limitadorv1alpha1.PodDisruptionBudgetType.mk (Some 1) None |}.

(** A platform whose declaration names a cached redis without a secret
    reference. *)
Definition unresolved : controllers.Platform :=
  fake.platform (fake.quiet fake.cachedNoRef).

(** The existing ConfigMap of the fake cluster, rewritten with the
    empty rule list. *)
Definition rewritten : v1.ConfigMap.t :=
  design.overwritten fake.cluster fake.brokenExisting
    {[ "limitador-config.yaml" := "limits: broken" ]} "[]".

(** A declaration with a redis backend whose Secret is not in the
    cluster. *)
Definition redisMissing : limitadorv1alpha1.LimitadorSpec.t :=
  limitadorv1alpha1.LimitadorSpec.mk None
    (Some (limitadorv1alpha1.Storage.mk
             (Some (limitadorv1alpha1.Redis.mk
                      (Some (v1.mkObjectReference "notexisting" "some-ns"))))
             None None))
    None.

(** The fake cluster with its calls recorded, a pass that starts with
    the budget of an earlier pass, and the state spec reconciliation
    leaves in that pass. *)
Definition recorded : controllers.Platform := spy.platform fake.cluster.

Definition recordedStart : controllers.State recorded :=
  controllers.mkState ((fake.withOldBudget, []) : controllers.World recorded) [].

Definition recordedSpecCalls : list spy.Call :=
  [spy.ApplyService reconcilers.CreateOnlyMutator;
   spy.ApplyPersistentVolumeClaim reconcilers.CreateOnlyMutator;
   spy.ApplyDeployment
     (reconcilers.DeploymentMutator
        (spy.deploymentMutators (fake.limitadorObj fake.plain)));
   spy.UpgradeDeployment;
   spy.ApplyConfigMap;
   spy.UpgradeConfigMap;
   spy.GetBudget (types.mkNamespacedName "some-ns" "limitador-pdb");
   spy.DeleteBudget].

Definition recordedAfterSpec : controllers.State recorded :=
  controllers.mkState
    ((∅, spy.GetLimitador (ctrl.NamespacedName fake.request) :: recordedSpecCalls)
       : controllers.World recorded)
    [controllers.Entered controllers.StepService;
     controllers.Entered controllers.StepPVC;
     controllers.Entered controllers.StepDeployment;
     controllers.Entered controllers.StepLimitsConfigMap;
     controllers.Entered controllers.StepPdb;
     controllers.Got (types.mkNamespacedName "some-ns" "limitador-pdb");
     controllers.Deleted fake.oldBudget].

End samples.

(** * Properties *)

(** ** Annotation helpers *)

Section HelpersProperties.
Import client helpers.
Context `{Object T}.

Lemma assign_index l k v h h' :
  gomap.assign l k v h = Some h' → gomap.index l k h' = Some v.
Proof.
  unfold gomap.assign, gomap.index. intros Hassign.
  destruct (h !! l) as [m|] eqn:Hl; simplify_eq.
  by rewrite !lookup_insert_eq.
Qed.

Lemma assign_allocated l k v h :
  is_Some (h !! l) → is_Some (gomap.assign l k v h).
Proof. intros [m Hm]. unfold gomap.assign. rewrite Hm. eauto. Qed.

Lemma make_allocated h : is_Some ((gomap.make h).2 !! (gomap.make h).1).
Proof. unfold gomap.make. simpl. rewrite lookup_insert_eq. eauto. Qed.

Lemma IsObjectTaggedToDelete_spec (obj : T) (h : gomap.store) :
  IsObjectTaggedToDelete obj h = true ↔
  ∃ l m, GetAnnotations obj = Some l ∧ h !! l = Some m
         ∧ m !! DeleteTagAnnotation = Some "true".
Proof.
  unfold IsObjectTaggedToDelete, gomap.index. split.
  - destruct (GetAnnotations obj) as [l|]; [|done].
    destruct (h !! l) as [m|] eqn:Hl; [|done].
    destruct (m !! DeleteTagAnnotation) as [a|] eqn:Ha; [|done].
    intros ->%bool_decide_eq_true. eauto.
  - intros (l & m & -> & -> & ->). by apply bool_decide_eq_true.
Qed.

(** C10. After [TagObjectToDelete] on an object (whose annotation map, if
    it has one, is a live map), the call returns and
    [IsObjectTaggedToDelete] on the same object is true; this covers the
    object that started with a nil annotation map, which leaves the call
    with a map. And [IsObjectTaggedToDelete] is true exactly when the
    object has an annotation map in which the delete annotation is
    present with the value ["true"]. *)
Theorem TagObjectToDelete_then_tagged (obj : T) (h : gomap.store) :
  allocated obj h →
  (∃ obj' h' l,
      TagObjectToDelete obj h = Some (obj', h')
      ∧ GetAnnotations obj' = Some l
      ∧ IsObjectTaggedToDelete obj' h' = true)
  ∧ (∀ (o : T) (s : gomap.store),
      IsObjectTaggedToDelete o s = true ↔
      ∃ l m, GetAnnotations o = Some l ∧ s !! l = Some m
             ∧ m !! DeleteTagAnnotation = Some "true").
Proof.
  intros Halloc. split; [|apply IsObjectTaggedToDelete_spec].
  unfold allocated, TagObjectToDelete in *.
  destruct (GetAnnotations obj) as [l|] eqn:Hget.
  - destruct (assign_allocated l DeleteTagAnnotation "true" h Halloc)
      as [h' Hassign].
    exists obj, h', l. rewrite Hassign. simpl. split_and!; [done..|].
    unfold IsObjectTaggedToDelete. rewrite Hget.
    by rewrite (assign_index _ _ _ _ _ Hassign).
  - destruct (gomap.make h) as [l h1] eqn:Hmake.
    pose proof (make_allocated h) as Hl. rewrite Hmake in Hl. simpl in Hl.
    destruct (assign_allocated l DeleteTagAnnotation "true" h1 Hl)
      as [h' Hassign].
    exists (SetAnnotations (Some l) obj), h', l. rewrite Hassign. simpl.
    split_and!; [done|apply GetAnnotations_SetAnnotations|].
    unfold IsObjectTaggedToDelete. rewrite GetAnnotations_SetAnnotations.
    by rewrite (assign_index _ _ _ _ _ Hassign).
Qed.

End HelpersProperties.

(** Two objects that share one annotation map: tagging the first tags
    the second, as it does in Go. *)
Example TagObjectToDelete_shared_map :
  ∃ obj' h',
    helpers.TagObjectToDelete
      (metav1.mkObjectMeta "a" "some-ns" (Some 1%positive) None)
      ({[ 1%positive := ∅ ]} : gomap.store)
    = Some (obj', h')
    ∧ helpers.IsObjectTaggedToDelete
        (metav1.mkObjectMeta "b" "some-ns" (Some 1%positive) None) h' = true.
Proof. eexists _, _. split; reflexivity. Qed.

(** C10 on an object that has no annotation map yet, in an empty store. *)
Lemma TagObjectToDelete_then_tagged_witness :
  helpers.allocated (fake.metaOf "limitador" "some-ns") (∅ : gomap.store)
  ∧ ∃ obj' h' l,
      helpers.TagObjectToDelete (fake.metaOf "limitador" "some-ns") ∅
        = Some (obj', h')
      ∧ client.GetAnnotations obj' = Some l
      ∧ helpers.IsObjectTaggedToDelete obj' h' = true.
Proof.
  split; [exact I|].
  apply (TagObjectToDelete_then_tagged (fake.metaOf "limitador" "some-ns") ∅).
  exact I.
Defined.

(** ** The cases of [TestRedisCachedDeploymentOptions] *)

Section Tests.
Import limitadorv1alpha1 limitador.

Example redis_secretRef_missing :
  RedisCachedDeploymentOptions (fakeClient []) "some-ns" (RedisCached.mk None None)
  = Err (ErrorString "there's no ConfigSecretRef set").
Proof. reflexivity. Qed.

Example redis_secret_resource_missing :
  ∃ err,
    RedisCachedDeploymentOptions (fakeClient []) "some-ns"
      (RedisCached.mk (Some (v1.mkObjectReference "notexisting" "some-ns")) None)
    = Err err
    ∧ errors.IsNotFound err = true.
Proof. eexists. split; reflexivity. Qed.

Example redis_secret_does_not_have_URL_field :
  RedisCachedDeploymentOptions (fakeClient [fake.emptySecret]) "some-ns"
    (RedisCached.mk (Some (v1.mkObjectReference "redisSecret" "some-ns")) None)
  = Err (ErrorString "the storage config Secret doesn't have the `URL` field").
Proof. reflexivity. Qed.

Example basic_redis_options :
  RedisCachedDeploymentOptions (fakeClient [fake.redisSecret]) "some-ns"
    (RedisCached.mk (Some (v1.mkObjectReference "redisSecret" "some-ns")) None)
  = Ok {| Command := ["redis_cached"; "$(LIMITADOR_OPERATOR_REDIS_URL)"];
          VolumeMounts := []; Volumes := [];
          DeploymentStrategy := StrategyUnset |}.
Proof. reflexivity. Qed.

Example redis_cache_options :
  RedisCachedDeploymentOptions (fakeClient [fake.redisSecret]) "some-ns"
    (RedisCached.mk (Some (v1.mkObjectReference "redisSecret" "some-ns"))
       (Some (RedisCachedOptions.mk (Some 1) (Some 2) (Some 3) (Some 4))))
  = Ok {| Command := ["redis_cached"; "$(LIMITADOR_OPERATOR_REDIS_URL)";
                      "--ttl"; "1"; "--ratio"; "2";
                      "--flush-period"; "3"; "--max-cached"; "4"];
          VolumeMounts := []; Volumes := [];
          DeploymentStrategy := StrategyUnset |}.
Proof. reflexivity. Qed.

(** Options that are set out of order keep the fixed flag order, and
    the unset ones leave no trace. *)
Example redis_cache_some_options :
  RedisCachedDeploymentOptions (fakeClient [fake.redisSecret]) "some-ns"
    (RedisCached.mk (Some (v1.mkObjectReference "redisSecret" "some-ns"))
       (Some (RedisCachedOptions.mk None (Some 2) None (Some (-4)))))
  = Ok {| Command := ["redis_cached"; "$(LIMITADOR_OPERATOR_REDIS_URL)";
                      "--ratio"; "2"; "--max-cached"; "-4"];
          VolumeMounts := []; Volumes := [];
          DeploymentStrategy := StrategyUnset |}.
Proof. reflexivity. Qed.

End Tests.

(** ** Storage options of the Redis backends *)

Section RedisProperties.
Import limitadorv1alpha1 limitador design.

Lemma validateRedisSecret_ok cl ns ref secret url :
  cl ns ref = Ok secret → v1.Data secret !! "URL" = Some url →
  validateRedisSecret cl ns ref = None.
Proof. unfold validateRedisSecret. by intros -> ->. Qed.

Lemma validateRedisSecret_fetch cl ns ref err :
  cl ns ref = Err err → validateRedisSecret cl ns ref = Some err.
Proof. unfold validateRedisSecret. by intros ->. Qed.

Lemma validateRedisSecret_no_url cl ns ref secret :
  cl ns ref = Ok secret → v1.Data secret !! "URL" = None →
  validateRedisSecret cl ns ref
  = Some (errors.New "the storage config Secret doesn't have the `URL` field").
Proof. unfold validateRedisSecret. by intros -> ->. Qed.

Lemma pretty_positive_no_dash (p : positive) (s : string) :
  pretty p ≠ "-" +:+ s.
Proof.
  unfold pretty, pretty_positive, pretty, pretty_N.
  case_decide; [done|]. by apply pretty_N_go_ne_dash.
Qed.

(** A decimal rendering never looks like a flag. *)
Lemma Itoa_not_flag (i : Z) (s : string) : Itoa i ≠ "--" +:+ s.
Proof.
  unfold Itoa, pretty, pretty_Z.
  destruct i as [|p|p]; intros Heq.
  - done.
  - by apply (pretty_positive_no_dash p ("-" +:+ s)).
  - injection Heq as Heq. by apply (pretty_positive_no_dash p s).
Qed.

Lemma RedisCachedDeploymentOptions_command cl ns ref secret url options :
  cl ns ref = Ok secret → v1.Data secret !! "URL" = Some url →
  RedisCachedDeploymentOptions cl ns (RedisCached.mk (Some ref) options)
  = Ok {| Command := cachedCommand options; VolumeMounts := []; Volumes := [];
          DeploymentStrategy := StrategyUnset |}.
Proof.
  intros Hcl Hurl. unfold RedisCachedDeploymentOptions. simpl.
  rewrite (validateRedisSecret_ok _ _ _ _ _ Hcl Hurl).
  do 2 f_equal. unfold cachedCommand.
  destruct options as [[[ttl|] [ratio|] [flush|] [cached|]]|]; reflexivity.
Qed.

Lemma renderFlags_elem flag table :
  (∀ f v, (f, v) ∈ table → ∃ s, f = "--" +:+ s) →
  "--" +:+ flag ∈ renderFlags table ↔
  ∃ i, ("--" +:+ flag, Some i) ∈ table.
Proof.
  intros Hflags. unfold renderFlags. rewrite list_elem_of_In, in_flat_map.
  split.
  - intros ([f [i|]] & Hin%list_elem_of_In & Hx); simpl in Hx; [|done].
    destruct Hx as [<-|[Hx|[]]]; [eauto|].
    by destruct (Itoa_not_flag i flag).
  - intros [i Hin]. exists ("--" +:+ flag, Some i).
    rewrite <-list_elem_of_In. split; [done|]. simpl. auto.
Qed.

End RedisProperties.

Section RedisCachedCommand.
Import limitadorv1alpha1 limitador design.

Lemma flagTable_elem (o : RedisCachedOptions.t) (f : string) (i : Z) :
  (f, Some i) ∈ flagTable o ↔
  (f = "--ttl" ∧ RedisCachedOptions.TTL o = Some i)
  ∨ (f = "--ratio" ∧ RedisCachedOptions.Ratio o = Some i)
  ∨ (f = "--flush-period" ∧ RedisCachedOptions.FlushPeriod o = Some i)
  ∨ (f = "--max-cached" ∧ RedisCachedOptions.MaxCached o = Some i).
Proof.
  unfold flagTable. rewrite !elem_of_cons, elem_of_nil. split.
  - intros [?|[?|[?|[?|[]]]]]; simplify_eq; auto.
  - intros [[-> <-]|[[-> <-]|[[-> <-]|[-> <-]]]]; auto.
Qed.

Lemma cachedCommand_elem (o : RedisCachedOptions.t) (flag : string) :
  "--" +:+ flag ∈ cachedCommand (Some o) ↔
  ∃ i, ("--" +:+ flag, Some i) ∈ flagTable o.
Proof.
  unfold cachedCommand. simpl from_option.
  rewrite elem_of_app, <-renderFlags_elem.
  - rewrite !elem_of_cons, elem_of_nil.
    split; [intros [[?|[?|[]]]|?]; [discriminate..|done]|by right].
  - intros f v. unfold flagTable. rewrite !elem_of_cons, elem_of_nil.
    intros [?|[?|[?|[?|[]]]]]; simplify_eq; eexists; reflexivity.
Qed.

Lemma cachedCommand_flag (o : RedisCachedOptions.t) :
  ("--ttl" ∈ cachedCommand (Some o) ↔ is_Some (RedisCachedOptions.TTL o))
  ∧ ("--ratio" ∈ cachedCommand (Some o) ↔ is_Some (RedisCachedOptions.Ratio o))
  ∧ ("--flush-period" ∈ cachedCommand (Some o)
     ↔ is_Some (RedisCachedOptions.FlushPeriod o))
  ∧ ("--max-cached" ∈ cachedCommand (Some o)
     ↔ is_Some (RedisCachedOptions.MaxCached o)).
Proof.
  pose proof (cachedCommand_elem o "ttl") as Httl.
  pose proof (cachedCommand_elem o "ratio") as Hratio.
  pose proof (cachedCommand_elem o "flush-period") as Hflush.
  pose proof (cachedCommand_elem o "max-cached") as Hcached.
  simpl in Httl, Hratio, Hflush, Hcached.
  rewrite Httl, Hratio, Hflush, Hcached. unfold is_Some.
  setoid_rewrite flagTable_elem.
  split_and!;
    (split;
     [intros [i [[? ?]|[[? ?]|[[? ?]|[? ?]]]]]; simplify_eq; eauto
     |intros [i Hi]; exists i; auto 6]).
Qed.

(** C3. For a redis-cached declaration whose secret holds a [URL] key:
    with ttl=1, ratio=2, flushPeriod=3 and maxCached=4 the resolved
    command is exactly [redis_cached], the URL variable, [--ttl 1],
    [--ratio 2], [--flush-period 3], [--max-cached 4]; without options
    it is exactly [redis_cached] and the URL variable; and for any
    options the command is those two words followed by one flag-value
    pair per option that is set, in the fixed order ttl, ratio,
    flush-period, max-cached, so that a flag occurs in the command
    exactly when its option is set. *)
Theorem RedisCachedDeploymentOptions_flags
    (cl : SecretGetter) (ns : string) (ref : v1.ObjectReference)
    (secret : v1.Secret) (url : string) :
  cl ns ref = Ok secret → v1.Data secret !! "URL" = Some url →
  RedisCachedDeploymentOptions cl ns
    (RedisCached.mk (Some ref)
       (Some (RedisCachedOptions.mk (Some 1) (Some 2) (Some 3) (Some 4))))
  = Ok {| Command := ["redis_cached"; "$(LIMITADOR_OPERATOR_REDIS_URL)";
                      "--ttl"; "1"; "--ratio"; "2";
                      "--flush-period"; "3"; "--max-cached"; "4"];
          VolumeMounts := []; Volumes := [];
          DeploymentStrategy := StrategyUnset |}
  ∧ RedisCachedDeploymentOptions cl ns (RedisCached.mk (Some ref) None)
    = Ok {| Command := ["redis_cached"; "$(LIMITADOR_OPERATOR_REDIS_URL)"];
            VolumeMounts := []; Volumes := [];
            DeploymentStrategy := StrategyUnset |}
  ∧ ∀ options : RedisCachedOptions.t,
      ∃ command,
        RedisCachedDeploymentOptions cl ns (RedisCached.mk (Some ref) (Some options))
        = Ok {| Command := command; VolumeMounts := []; Volumes := [];
                DeploymentStrategy := StrategyUnset |}
        ∧ command = (["redis_cached"; "$(LIMITADOR_OPERATOR_REDIS_URL)"]
                       ++ renderFlags (flagTable options))%list
        ∧ ("--ttl" ∈ command ↔ is_Some (RedisCachedOptions.TTL options))
        ∧ ("--ratio" ∈ command ↔ is_Some (RedisCachedOptions.Ratio options))
        ∧ ("--flush-period" ∈ command
           ↔ is_Some (RedisCachedOptions.FlushPeriod options))
        ∧ ("--max-cached" ∈ command
           ↔ is_Some (RedisCachedOptions.MaxCached options)).
Proof.
  intros Hcl Hurl. split_and!.
  - by rewrite (RedisCachedDeploymentOptions_command _ _ _ _ _ _ Hcl Hurl).
  - by rewrite (RedisCachedDeploymentOptions_command _ _ _ _ _ _ Hcl Hurl).
  - intros options. exists (cachedCommand (Some options)).
    split; [apply (RedisCachedDeploymentOptions_command _ _ _ _ _ _ Hcl Hurl)|].
    split; [reflexivity|apply cachedCommand_flag].
Qed.

End RedisCachedCommand.

(** C3 on the fake client of the test, holding the secret with its URL. *)
Lemma RedisCachedDeploymentOptions_flags_witness :
  limitador.fakeClient [fake.redisSecret] "some-ns"
    (v1.mkObjectReference "redisSecret" "some-ns") = Ok fake.redisSecret
  ∧ v1.Data fake.redisSecret !! "URL" = Some "redis://example.com:6379"
  ∧ limitador.RedisCachedDeploymentOptions
      (limitador.fakeClient [fake.redisSecret]) "some-ns"
      (limitadorv1alpha1.RedisCached.mk
         (Some (v1.mkObjectReference "redisSecret" "some-ns"))
         (Some (limitadorv1alpha1.RedisCachedOptions.mk
                  (Some 1) (Some 2) (Some 3) (Some 4))))
    = Ok {| limitador.Command :=
              ["redis_cached"; "$(LIMITADOR_OPERATOR_REDIS_URL)";
               "--ttl"; "1"; "--ratio"; "2";
               "--flush-period"; "3"; "--max-cached"; "4"];
            limitador.VolumeMounts := []; limitador.Volumes := [];
            limitador.DeploymentStrategy := limitador.StrategyUnset |}.
Proof.
  split; [reflexivity|]. split; [reflexivity|].
  apply (RedisCachedDeploymentOptions_flags
           (limitador.fakeClient [fake.redisSecret]) "some-ns"
           (v1.mkObjectReference "redisSecret" "some-ns")
           fake.redisSecret "redis://example.com:6379");
    reflexivity.
Defined.

(** ** Storage-backend resolution *)

Section Resolution.
Import limitadorv1alpha1 limitador controllers design.
Context (P : Platform).

(** C2. Storage-backend resolution is the priority rule of the design
    document: redis, then redis-cached, then disk, first non-nil field
    wins, else in-memory. Spelled out: a set redis field decides
    whatever the other fields hold; redis-cached decides when redis is
    nil; disk decides when both are nil; and a nil storage field, or a
    storage with all three fields nil, yields the in-memory options. *)
Theorem getDeploymentStorageOptions_priority
    (ctx : logr.Context) (limObj : Limitador.t) :
  getDeploymentStorageOptions P ctx limObj = resolve P limObj
  ∧ (∀ storage redis,
       LimitadorSpec.Storage (Limitador.Spec limObj) = Some storage →
       Storage.Redis storage = Some redis →
       getDeploymentStorageOptions P ctx limObj
       = peek (λ w, RedisDeploymentOptions (ClientGetSecret P w)
                      (Limitador.Namespace limObj) redis))
  ∧ (∀ storage redisCached,
       LimitadorSpec.Storage (Limitador.Spec limObj) = Some storage →
       Storage.Redis storage = None →
       Storage.RedisCached storage = Some redisCached →
       getDeploymentStorageOptions P ctx limObj
       = peek (λ w, RedisCachedDeploymentOptions (ClientGetSecret P w)
                      (Limitador.Namespace limObj) redisCached))
  ∧ (∀ storage disk,
       LimitadorSpec.Storage (Limitador.Spec limObj) = Some storage →
       Storage.Redis storage = None →
       Storage.RedisCached storage = None →
       Storage.Disk storage = Some disk →
       getDeploymentStorageOptions P ctx limObj
       = mret (DiskDeploymentOptions P limObj disk))
  ∧ (LimitadorSpec.Storage (Limitador.Spec limObj) = None
     ∨ LimitadorSpec.Storage (Limitador.Spec limObj)
       = Some (Storage.mk None None None) →
     getDeploymentStorageOptions P ctx limObj
     = mret (InMemoryDeploymentOptions P)).
Proof.
  unfold getDeploymentStorageOptions, resolve, firstNonNil.
  split_and!.
  - destruct (LimitadorSpec.Storage (Limitador.Spec limObj))
      as [[[redis|] [redisCached|] [disk|]]|]; reflexivity.
  - by intros storage redis -> ->.
  - by intros storage redisCached -> -> ->.
  - by intros storage disk -> -> -> ->.
  - by intros [->| ->].
Qed.

(** C4. When the declared backend is redis or redis-cached, resolution
    fails instead of producing options in each of three cases: without
    a secret reference it fails with the configuration error "there's no
    ConfigSecretRef set"; when the secret cannot be fetched it fails
    with the store's own error, unchanged; and when the fetched secret
    has no [URL] key it fails with the configuration error about the
    missing [URL] field. *)
Theorem getDeploymentStorageOptions_redis_fails
    (ctx : logr.Context) (limObj : Limitador.t) (s : State P)
    (secretRef : option v1.ObjectReference) :
  declaredSecretRef limObj = Some secretRef →
  (secretRef = None →
   getDeploymentStorageOptions P ctx limObj s
   = (Err (errors.New "there's no ConfigSecretRef set"), s))
  ∧ (∀ ref err,
       secretRef = Some ref →
       ClientGetSecret P (world s) (Limitador.Namespace limObj) ref = Err err →
       getDeploymentStorageOptions P ctx limObj s = (Err err, s))
  ∧ (∀ ref secret,
       secretRef = Some ref →
       ClientGetSecret P (world s) (Limitador.Namespace limObj) ref = Ok secret →
       v1.Data secret !! "URL" = None →
       getDeploymentStorageOptions P ctx limObj s
       = (Err (errors.New
                 "the storage config Secret doesn't have the `URL` field"), s)).
Proof.
  unfold declaredSecretRef, getDeploymentStorageOptions.
  destruct (LimitadorSpec.Storage (Limitador.Spec limObj))
    as [[[[redisRef]|] [[cachedRef options]|] disk]|];
    simpl; intros Href; simplify_eq;
    unfold peek, RedisDeploymentOptions, RedisCachedDeploymentOptions; simpl.
  all: split_and!;
    [by intros ->
    |intros ref err -> Hcl; by rewrite (validateRedisSecret_fetch _ _ _ _ Hcl)
    |intros ref secret -> Hcl Hurl;
     by rewrite (validateRedisSecret_no_url _ _ _ _ Hcl Hurl)].
Qed.

End Resolution.

(** C2 on a declaration that sets all three backends at once. *)
Lemma getDeploymentStorageOptions_priority_witness :
  controllers.getDeploymentStorageOptions
    (fake.platform (fake.quiet fake.plain)) fake.background
    (fake.limitadorObj
       (limitadorv1alpha1.LimitadorSpec.mk None (Some fake.allBackends) None))
  = controllers.peek
      (λ w, limitador.RedisDeploymentOptions
              (controllers.ClientGetSecret (fake.platform (fake.quiet fake.plain)) w)
              "some-ns" fake.redisNoRef).
Proof.
  apply (proj1 (proj2 (getDeploymentStorageOptions_priority
                         (fake.platform (fake.quiet fake.plain)) fake.background
                         (fake.limitadorObj
                            (limitadorv1alpha1.LimitadorSpec.mk
                               None (Some fake.allBackends) None))))
           fake.allBackends fake.redisNoRef);
    reflexivity.
Defined.

(** C4 on a redis-cached declaration without a secret reference. *)
Lemma getDeploymentStorageOptions_redis_fails_witness :
  design.declaredSecretRef (fake.limitadorObj fake.cachedNoRef) = Some None
  ∧ controllers.getDeploymentStorageOptions
      (fake.platform (fake.quiet fake.cachedNoRef)) fake.background
      (fake.limitadorObj fake.cachedNoRef)
      (fake.start (fake.platform (fake.quiet fake.cachedNoRef)) ∅)
    = (Err (errors.New "there's no ConfigSecretRef set"),
       fake.start (fake.platform (fake.quiet fake.cachedNoRef)) ∅).
Proof.
  split; [reflexivity|].
  apply (proj1 (getDeploymentStorageOptions_redis_fails
                  (fake.platform (fake.quiet fake.cachedNoRef)) fake.background
                  (fake.limitadorObj fake.cachedNoRef)
                  (fake.start (fake.platform (fake.quiet fake.cachedNoRef)) ∅)
                  None eq_refl)).
  reflexivity.
Defined.

(** ** The reconciliation pass *)

(** Running monadic code: unfold the monad and split on every branch. *)
Ltac unfold_monad :=
  unfold mbind, mret, controllers.M_bind, controllers.M_ret, controllers.bind,
    controllers.ret, controllers.call, controllers.peek, controllers.emit in *.

Ltac run :=
  unfold_monad; simpl in *; simplify_eq/=; repeat (case_match; simplify_eq/=).

Section Pass.
Import limitadorv1alpha1 limitador controllers design.
Context (P : Platform).
Implicit Types (ctx : logr.Context) (o : Limitador.t) (s : State P).

Lemma added_app s s' t : trace s' = (trace s ++ t)%list → added s s' = t.
Proof. unfold added. intros ->. by rewrite drop_app_length. Qed.

Lemma getDeploymentOptions_trace ctx o s r s' :
  getDeploymentOptions P ctx o s = (r, s') → trace s' = trace s.
Proof.
  unfold getDeploymentOptions, getDeploymentStorageOptions. intros Hrun.
  by run.
Qed.

Lemma reconcileService_trace ctx o s e s' :
  reconcileService P ctx o s = (e, s') →
  trace s' = (trace s ++ [Entered StepService])%list.
Proof. unfold reconcileService. intros Hrun. by run. Qed.

Lemma reconcilePVC_trace ctx o s e s' :
  reconcilePVC P ctx o s = (e, s') →
  trace s' = (trace s ++ [Entered StepPVC])%list.
Proof. unfold reconcilePVC. intros Hrun. by run. Qed.

Lemma reconcileDeployment_trace ctx o s r s' :
  reconcileDeployment P ctx o s = (r, s') →
  trace s' = (trace s ++ [Entered StepDeployment])%list.
Proof.
  unfold reconcileDeployment. intros Hrun. unfold_monad. simpl in Hrun.
  destruct (logr.FromContext ctx); [|by simplify_eq].
  destruct (getDeploymentOptions P ctx o _) as [[opts|err] s1] eqn:Hopts;
    apply getDeploymentOptions_trace in Hopts; simpl in Hopts;
    by run.
Qed.

Lemma reconcileLimitsConfigMap_trace ctx o s e s' :
  reconcileLimitsConfigMap P ctx o s = (e, s') →
  trace s' = (trace s ++ [Entered StepLimitsConfigMap])%list.
Proof. unfold reconcileLimitsConfigMap. intros Hrun. by run. Qed.

Lemma reconcilePdb_trace ctx o s e s' :
  reconcilePdb P ctx o s = (e, s') →
  ∃ t, trace s' = (trace s ++ Entered StepPdb :: t)%list ∧ entered t = [].
Proof.
  unfold reconcilePdb. intros Hrun.
  run; rewrite <-?(assoc_L (++)); simpl; eauto.
Qed.

(** Rebuild the trace of a pass from the traces of its steps. *)
Ltac chain_traces :=
  repeat match goal with
         | T : trace ?s' = _ |- context [trace ?s'] => rewrite T
         end;
  rewrite <-?(assoc_L (++)); simpl.

(** C7. Spec reconciliation enters the per-kind reconcilers in the order
    Service, PersistentVolumeClaim, Deployment, ConfigMap,
    PodDisruptionBudget. The reconcilers it has entered when it returns
    are a prefix of that order: it stops after the first one that
    returns an error and returns that error, and it stops after the
    Deployment reconciler when that one signals a requeue, returning the
    requeue without entering the ConfigMap and PodDisruptionBudget
    reconcilers; only when the first four succeed without a requeue
    does it enter all five. *)
Theorem reconcileSpec_order ctx o s e1 s1 e2 s2 r3 e3 s3 e4 s4 e5 s5 out s' :
  reconcileService P ctx o s = (e1, s1) →
  reconcilePVC P ctx o s1 = (e2, s2) →
  reconcileDeployment P ctx o s2 = ((r3, e3), s3) →
  reconcileLimitsConfigMap P ctx o s3 = (e4, s4) →
  reconcilePdb P ctx o s4 = (e5, s5) →
  reconcileSpec P ctx o s = (out, s') →
  (∀ err, e1 = Some err →
     out = (ctrl.zero, Some err) ∧ s' = s1
     ∧ entered (added s s') = take 1 specOrder)
  ∧ (e1 = None → ∀ err, e2 = Some err →
     out = (ctrl.zero, Some err) ∧ s' = s2
     ∧ entered (added s s') = take 2 specOrder)
  ∧ (e1 = None → e2 = None → ctrl.Requeue r3 = true →
     out = (r3, None) ∧ s' = s3
     ∧ entered (added s s') = take 3 specOrder)
  ∧ (e1 = None → e2 = None → ctrl.Requeue r3 = false → ∀ err, e3 = Some err →
     out = (ctrl.zero, Some err) ∧ s' = s3
     ∧ entered (added s s') = take 3 specOrder)
  ∧ (e1 = None → e2 = None → ctrl.Requeue r3 = false → e3 = None →
     ∀ err, e4 = Some err →
     out = (ctrl.zero, Some err) ∧ s' = s4
     ∧ entered (added s s') = take 4 specOrder)
  ∧ (e1 = None → e2 = None → ctrl.Requeue r3 = false → e3 = None →
     e4 = None →
     out = (ctrl.zero, e5) ∧ s' = s5
     ∧ entered (added s s') = specOrder).
Proof.
  intros H1 H2 H3 H4 H5 Hspec.
  pose proof (reconcileService_trace _ _ _ _ _ H1) as T1.
  pose proof (reconcilePVC_trace _ _ _ _ _ H2) as T2.
  pose proof (reconcileDeployment_trace _ _ _ _ _ H3) as T3.
  pose proof (reconcileLimitsConfigMap_trace _ _ _ _ _ H4) as T4.
  destruct (reconcilePdb_trace _ _ _ _ _ H5) as (t5 & T5 & E5).
  unfold reconcileSpec in Hspec. unfold_monad. rewrite H1 in Hspec.
  split_and!.
  - intros err ->. simplify_eq.
    split_and!; [done..|]. erewrite added_app; [|by chain_traces]. done.
  - intros -> err ->. rewrite H2 in Hspec. simplify_eq.
    split_and!; [done..|]. erewrite added_app; [|by chain_traces]. done.
  - intros -> -> Hrequeue. rewrite H2, H3, Hrequeue in Hspec. simplify_eq.
    split_and!; [done..|]. erewrite added_app; [|by chain_traces]. done.
  - intros -> -> Hrequeue err ->. rewrite H2, H3, Hrequeue in Hspec.
    simplify_eq.
    split_and!; [done..|]. erewrite added_app; [|by chain_traces]. done.
  - intros -> -> Hrequeue -> err ->.
    rewrite H2, H3, Hrequeue, H4 in Hspec. simplify_eq.
    split_and!; [done..|]. erewrite added_app; [|by chain_traces]. done.
  - intros -> -> Hrequeue -> ->.
    rewrite H2, H3, Hrequeue, H4, H5 in Hspec.
    assert (out = (ctrl.zero, e5) ∧ s' = s5) as [-> ->]
      by (destruct e5; by simplify_eq).
    split_and!; [done..|]. erewrite added_app; [|by chain_traces].
    simpl. by rewrite E5.
Qed.

(** C8. When the Service and PersistentVolumeClaim reconcilers succeed
    and the Deployment reconciler returns a requeue signal together with
    an error, spec reconciliation returns that requeue result with a nil
    error: the error is dropped. *)
Theorem reconcileSpec_requeue_drops_error ctx o s s1 s2 r3 err s3 :
  reconcileService P ctx o s = (None, s1) →
  reconcilePVC P ctx o s1 = (None, s2) →
  reconcileDeployment P ctx o s2 = ((r3, Some err), s3) →
  ctrl.Requeue r3 = true →
  reconcileSpec P ctx o s = ((r3, None), s3).
Proof.
  intros H1 H2 H3 Hrequeue. unfold reconcileSpec. unfold_monad.
  by rewrite H1, H2, H3, Hrequeue.
Qed.

(** C6. For a declaration without a disruption-budget policy,
    PodDisruptionBudget reconciliation, called as [Reconcile] calls it
    (with a logger in the context), looks the budget up under the
    declaration's namespace and the derived name. A not-found answer is
    a success and nothing is deleted; a budget that already carries a
    deletion timestamp is a success and nothing is deleted; a budget
    without one is deleted, and the result is that of the deletion. Any
    other lookup error is returned. *)
Theorem reconcilePdb_removes_budget eventCtx logger o s r w1 e s' :
  LimitadorSpec.PodDisruptionBudget (Limitador.Spec o) = None →
  GetResource P (budgetKey P o) (world s) = (r, w1) →
  reconcilePdb P (logr.NewContext eventCtx logger) o s = (e, s') →
  (∀ err, r = Err err →
     e = (if errors.IsNotFound err then None else Some err)
     ∧ world s' = w1
     ∧ added s s' = [Entered StepPdb; Got (budgetKey P o)])
  ∧ (∀ pdb ts, r = Ok pdb →
     metav1.DeletionTimestamp (policyv1.ObjectMeta pdb) = Some ts →
     e = None ∧ world s' = w1
     ∧ added s s' = [Entered StepPdb; Got (budgetKey P o)])
  ∧ (∀ pdb, r = Ok pdb →
     metav1.DeletionTimestamp (policyv1.ObjectMeta pdb) = None →
     (e, world s') = DeleteResource P pdb w1
     ∧ added s s' = [Entered StepPdb; Got (budgetKey P o); Deleted pdb]).
Proof.
  intros Hpolicy Hget Hrun.
  unfold reconcilePdb, logr.FromContext, logr.NewContext in Hrun.
  simpl in Hrun. rewrite Hpolicy in Hrun. unfold budgetKey in *.
  unfold_monad. simpl in Hrun. rewrite Hget in Hrun. simpl in Hrun.
  split_and!.
  - intros err ->. destruct (errors.IsNotFound err); simplify_eq/=;
      (split_and!; [done..|]); apply added_app; simpl;
      by rewrite <-(assoc_L (++)).
  - intros pdb ts -> Hts. rewrite Hts in Hrun. simplify_eq/=.
    split_and!; [done..|]. apply added_app. simpl.
    by rewrite <-(assoc_L (++)).
  - intros pdb -> Hts. rewrite Hts in Hrun. simpl in Hrun.
    destruct (DeleteResource P pdb w1) as [[err|] w2]; simplify_eq/=;
      (split; [done|]); apply added_app; simpl;
      by rewrite <-!(assoc_L (++)).
Qed.

(** C1. On a declaration that is found and not marked for deletion
    (and whose debug dump, when debug logging is on, does not fail),
    status reconciliation runs right after spec reconciliation, on the
    cluster as spec reconciliation left it and with the error spec
    reconciliation returned, whether or not that error is nil. The pass
    then returns: the spec error if there is one; else the status error
    if there is one; else the spec result if it asks for a requeue;
    else the status result if it asks for a requeue; else the empty
    result and no error. *)
Theorem Reconcile_precedence eventCtx req s limitadorObj w1
    specResult specErr s2 statusResult statusErr w3 out s' :
  ClientGetLimitador P (ctrl.NamespacedName req) (world s)
    = (Ok limitadorObj, w1) →
  (logr.V1Enabled (Logger P) = true →
   is_Err (MarshalIndent P limitadorObj) = false) →
  Limitador.GetDeletionTimestamp limitadorObj = None →
  reconcileSpec P (logr.NewContext eventCtx (Logger P)) limitadorObj
    (mkState w1 (trace s)) = ((specResult, specErr), s2) →
  reconcileStatus P limitadorObj specErr (world s2)
    = ((statusResult, statusErr), w3) →
  Reconcile P eventCtx req s = (out, s') →
  s' = mkState w3 (trace s2 ++ [StatusReconciled specErr])
  ∧ (∀ err, specErr = Some err → out = (ctrl.zero, Some err))
  ∧ (specErr = None → ∀ err, statusErr = Some err →
     out = (ctrl.zero, Some err))
  ∧ (specErr = None → statusErr = None → ctrl.Requeue specResult = true →
     out = (specResult, None))
  ∧ (specErr = None → statusErr = None → ctrl.Requeue specResult = false →
     ctrl.Requeue statusResult = true → out = (statusResult, None))
  ∧ (specErr = None → statusErr = None → ctrl.Requeue specResult = false →
     ctrl.Requeue statusResult = false → out = (ctrl.zero, None)).
Proof.
  intros Hget Hdump Hlive Hspec Hstatus Hrun.
  unfold Reconcile in Hrun. unfold_monad. rewrite Hget in Hrun.
  assert ((if logr.V1Enabled (Logger P)
           then match MarshalIndent P limitadorObj with
                | Ok _ => None
                | Err err => Some err
                end
           else None) = None) as Hdumped.
  { destruct (logr.V1Enabled (Logger P)); [|done].
    specialize (Hdump eq_refl). by destruct (MarshalIndent P limitadorObj). }
  simpl in Hrun. rewrite Hdumped, Hlive, Hspec in Hrun. simpl in Hrun.
  rewrite Hstatus in Hrun.
  destruct specErr as [specErr|], statusErr as [statusErr|],
    (ctrl.Requeue specResult) eqn:?, (ctrl.Requeue statusResult) eqn:?;
    simplify_eq/=; split_and!; intros; by simplify_eq.
Qed.

End Pass.

(** ** The ConfigMap mutator *)

Section Mutator.
Import controllers design.
Context (P : Platform).
#[local] Existing Instance RateLimit_eq_dec.

Lemma payload_overwritten existing data doc :
  payload P (overwritten P existing data doc) = doc.
Proof. unfold payload, overwritten. simpl. by rewrite lookup_insert_eq. Qed.

Lemma mutateLimitsConfigMap_run existing desired data desiredLimits :
  v1.ConfigMap.Data existing = Some data →
  Unmarshal P (payload P desired) = Ok desiredLimits →
  mutateLimitsConfigMap P (ConfigMapObject existing) (ConfigMapObject desired)
  = if bool_decide (desiredLimits ≠ carried P existing)
    then Returns (true, None,
                  ConfigMapObject (overwritten P existing data (payload P desired)))
    else Returns (false, None, ConfigMapObject existing).
Proof.
  intros Hdata Hdesired. unfold mutateLimitsConfigMap, carried, overwritten.
  rewrite Hdesired. by rewrite Hdata.
Qed.

(** How the mutator compares. For a desired ConfigMap whose payload
    deserializes and an existing ConfigMap that has a data map, the
    mutator returns without error and reports a change exactly when the
    two rule lists differ, a nil list differing from an empty one; when
    it reports a change, the existing payload has been overwritten with
    the desired one, and otherwise the existing object is untouched. An
    existing payload that does not deserialize counts as the nil list:
    the desired content is then written whenever the desired list is not
    nil. *)
Theorem mutateLimitsConfigMap_compares existing desired data desiredLimits :
  v1.ConfigMap.Data existing = Some data →
  Unmarshal P (payload P desired) = Ok desiredLimits →
  ∃ updated obj,
    mutateLimitsConfigMap P (ConfigMapObject existing) (ConfigMapObject desired)
    = Returns (updated, None, ConfigMapObject obj)
    ∧ (updated = true ↔ desiredLimits ≠ carried P existing)
    ∧ (updated = true →
       obj = overwritten P existing data (payload P desired)
       ∧ payload P obj = payload P desired)
    ∧ (updated = false → obj = existing)
    ∧ (∀ err, Unmarshal P (payload P existing) = Err err →
       desiredLimits ≠ None → updated = true).
Proof.
  intros Hdata Hdesired.
  rewrite (mutateLimitsConfigMap_run _ _ _ _ Hdata Hdesired).
  case_bool_decide as Hdiffer; eexists _, _; (split; [reflexivity|]).
  - split_and!; [done| |done|done].
    intros _. split; [done|apply payload_overwritten].
  - split_and!; [done|done|done|].
    intros err Herr Hnil. destruct Hnil. rewrite Hdiffer. unfold carried.
    by rewrite Herr.
Qed.

(** C9. A desired payload that does not deserialize makes the mutator
    return that error and report no change, leaving the existing object
    as it was, whatever the existing payload is. An existing payload
    that does not deserialize does not: with a desired payload that
    deserializes (and an existing data map to write to) the mutator
    returns without error. *)
Theorem mutateLimitsConfigMap_asymmetric existing desired :
  (∀ err, Unmarshal P (payload P desired) = Err err →
     mutateLimitsConfigMap P (ConfigMapObject existing) (ConfigMapObject desired)
     = Returns (false, Some err, ConfigMapObject existing))
  ∧ (∀ err desiredLimits data,
       Unmarshal P (payload P existing) = Err err →
       Unmarshal P (payload P desired) = Ok desiredLimits →
       v1.ConfigMap.Data existing = Some data →
       ∃ updated obj,
         mutateLimitsConfigMap P (ConfigMapObject existing)
           (ConfigMapObject desired)
         = Returns (updated, None, obj)).
Proof.
  split.
  - intros err Hdesired. unfold mutateLimitsConfigMap. by rewrite Hdesired.
  - intros err desiredLimits data _ Hdesired Hdata.
    rewrite (mutateLimitsConfigMap_run _ _ _ _ Hdata Hdesired).
    case_bool_decide; eauto.
Qed.

End Mutator.

(** ** The properties on concrete passes *)

Section Runs.
Import controllers design.

(** An existing payload that is a mapping, which does not deserialize
    as a rule list, against the desired payload [null]: the mutator
    reports no change and leaves the existing payload, which is not the
    desired one, in place. *)
Lemma mutateLimitsConfigMap_unparsable_existing_kept :
  is_Err (Unmarshal fake.cluster (payload fake.cluster fake.brokenExisting)) = true
  ∧ mutateLimitsConfigMap fake.cluster
      (ConfigMapObject fake.brokenExisting) (ConfigMapObject fake.nullDesired)
    = Returns (false, None, ConfigMapObject fake.brokenExisting)
  ∧ payload fake.cluster fake.brokenExisting
    ≠ payload fake.cluster fake.nullDesired.
Proof. split_and!; [reflexivity..|discriminate]. Qed.

(** An existing ConfigMap without a data map: the comparison finds a
    difference and the write into the nil map panics. *)
Example mutateLimitsConfigMap_nil_data_panics :
  mutateLimitsConfigMap fake.cluster
    (ConfigMapObject fake.noData) (ConfigMapObject fake.emptyDesired)
  = Panics "assignment to entry in nil map".
Proof. reflexivity. Qed.

(** The comparison on an existing payload that does not deserialize and
    the desired empty list. *)
Lemma mutateLimitsConfigMap_compares_witness :
  v1.ConfigMap.Data fake.brokenExisting
    = Some {[ "limitador-config.yaml" := "limits: broken" ]}
  ∧ Unmarshal fake.cluster (payload fake.cluster fake.emptyDesired) = Ok (Some [])
  ∧ ∃ updated obj,
      mutateLimitsConfigMap fake.cluster
        (ConfigMapObject fake.brokenExisting) (ConfigMapObject fake.emptyDesired)
      = Returns (updated, None, ConfigMapObject obj)
      ∧ (updated = true ↔ Some [] ≠ carried fake.cluster fake.brokenExisting)
      ∧ (updated = true →
         obj = overwritten fake.cluster fake.brokenExisting
                 {[ "limitador-config.yaml" := "limits: broken" ]}
                 (payload fake.cluster fake.emptyDesired)
         ∧ payload fake.cluster obj = payload fake.cluster fake.emptyDesired)
      ∧ (updated = false → obj = fake.brokenExisting)
      ∧ (∀ err,
           Unmarshal fake.cluster (payload fake.cluster fake.brokenExisting)
           = Err err →
           Some [] ≠ (None : option (list (RateLimit fake.cluster))) →
           updated = true).
Proof.
  split; [reflexivity|]. split; [reflexivity|].
  apply (mutateLimitsConfigMap_compares fake.cluster
           fake.brokenExisting fake.emptyDesired
           {[ "limitador-config.yaml" := "limits: broken" ]} (Some []));
    reflexivity.
Defined.

(** C5. The mutator does not always do what the design document says
    of it, and what the source's own comment intends ("so the operator
    will enforce desired content"). On an existing ConfigMap without a
    data map and the desired empty list [[]], the two rule lists differ
    (nil against empty), and instead of reporting the change and writing
    the desired payload the mutator panics on the write into the nil
    map. On an existing payload that does not deserialize and the
    desired payload [null], the mutator reports no change and leaves the
    undecodable payload, which is not the desired one, in place: the
    existing list was set to nil, the desired list is nil as well, and
    the two compare equal. *)
Theorem mutateLimitsConfigMap_fails_to_enforce :
  (carried fake.cluster fake.emptyDesired ≠ carried fake.cluster fake.noData
   ∧ mutateLimitsConfigMap fake.cluster
       (ConfigMapObject fake.noData) (ConfigMapObject fake.emptyDesired)
     = Panics "assignment to entry in nil map")
  ∧ (is_Err (Unmarshal fake.cluster (payload fake.cluster fake.brokenExisting))
     = true
     ∧ payload fake.cluster fake.brokenExisting
       ≠ payload fake.cluster fake.nullDesired
     ∧ mutateLimitsConfigMap fake.cluster
         (ConfigMapObject fake.brokenExisting) (ConfigMapObject fake.nullDesired)
       = Returns (false, None, ConfigMapObject fake.brokenExisting)).
Proof.
  split.
  - split; [discriminate|reflexivity].
  - split_and!; [reflexivity|discriminate|reflexivity].
Qed.

(** C9 on a desired payload that does not deserialize. *)
Lemma mutateLimitsConfigMap_asymmetric_witness :
  Unmarshal fake.cluster (payload fake.cluster fake.brokenExisting)
    = Err (ErrorString "error unmarshaling JSON")
  ∧ mutateLimitsConfigMap fake.cluster
      (ConfigMapObject fake.emptyDesired) (ConfigMapObject fake.brokenExisting)
    = Returns (false, Some (ErrorString "error unmarshaling JSON"),
               ConfigMapObject fake.emptyDesired).
Proof.
  split; [reflexivity|].
  apply (proj1 (mutateLimitsConfigMap_asymmetric fake.cluster
                  fake.emptyDesired fake.brokenExisting)).
  reflexivity.
Defined.

(** C6 on a cluster that still holds the budget of an earlier pass: the
    budget is looked up, deleted, and gone afterwards. *)
Lemma reconcilePdb_removes_budget_witness :
  reconcilePdb fake.cluster
    (logr.NewContext fake.background (Logger fake.cluster))
    (fake.limitadorObj fake.plain) (fake.start fake.cluster fake.withOldBudget)
  = (None,
     mkState (∅ : World fake.cluster)
       [Entered StepPdb;
        Got (types.mkNamespacedName "some-ns" "limitador-pdb");
        Deleted fake.oldBudget])
  ∧ added (fake.start fake.cluster fake.withOldBudget)
      (mkState (∅ : World fake.cluster)
         [Entered StepPdb;
          Got (types.mkNamespacedName "some-ns" "limitador-pdb");
          Deleted fake.oldBudget])
    = [Entered StepPdb;
       Got (types.mkNamespacedName "some-ns" "limitador-pdb");
       Deleted fake.oldBudget].
Proof.
  split; [reflexivity|].
  apply (proj2 (proj2 (reconcilePdb_removes_budget fake.cluster
           fake.background (Logger fake.cluster)
           (fake.limitadorObj fake.plain)
           (fake.start fake.cluster fake.withOldBudget)
           (Ok fake.oldBudget) fake.withOldBudget None
           (mkState (∅ : World fake.cluster)
              [Entered StepPdb;
               Got (types.mkNamespacedName "some-ns" "limitador-pdb");
               Deleted fake.oldBudget])
           eq_refl eq_refl eq_refl)) fake.oldBudget eq_refl eq_refl).
Defined.

(** C1 on a pass whose Service apply fails: status reconciliation still
    runs, with that error, and the pass returns the error. *)
Lemma Reconcile_precedence_witness :
  Reconcile (fake.platform fake.serviceFails) fake.background fake.request
    (fake.start (fake.platform fake.serviceFails) ∅)
  = ((ctrl.zero, Some fake.boom),
     mkState (∅ : World (fake.platform fake.serviceFails))
       [Entered StepService; StatusReconciled (Some fake.boom)])
  ∧ ∀ err, Some fake.boom = Some err →
      (ctrl.zero, Some fake.boom) = (ctrl.zero, Some err).
Proof.
  split; [reflexivity|].
  apply (proj1 (proj2 (Reconcile_precedence (fake.platform fake.serviceFails)
           fake.background fake.request
           (fake.start (fake.platform fake.serviceFails) ∅)
           (fake.limitadorObj fake.plain) ∅
           ctrl.zero (Some fake.boom)
           (mkState (∅ : World (fake.platform fake.serviceFails))
              [Entered StepService])
           ctrl.zero None ∅
           (ctrl.zero, Some fake.boom)
           (mkState (∅ : World (fake.platform fake.serviceFails))
              [Entered StepService; StatusReconciled (Some fake.boom)])
           eq_refl (λ _, eq_refl) eq_refl eq_refl eq_refl eq_refl))).
Defined.

(** C7 on a pass in which every reconciler succeeds: all five are
    entered, in order. *)
Lemma reconcileSpec_order_witness :
  reconcileSpec fake.cluster (fake.passContext fake.cluster)
    (fake.limitadorObj fake.plain) (fake.start fake.cluster fake.withOldBudget)
  = ((ctrl.zero, None),
     mkState (∅ : World fake.cluster)
       [Entered StepService; Entered StepPVC; Entered StepDeployment;
        Entered StepLimitsConfigMap; Entered StepPdb;
        Got (types.mkNamespacedName "some-ns" "limitador-pdb");
        Deleted fake.oldBudget])
  ∧ entered
      (added (fake.start fake.cluster fake.withOldBudget)
         (mkState (∅ : World fake.cluster)
            [Entered StepService; Entered StepPVC; Entered StepDeployment;
             Entered StepLimitsConfigMap; Entered StepPdb;
             Got (types.mkNamespacedName "some-ns" "limitador-pdb");
             Deleted fake.oldBudget]))
    = specOrder.
Proof.
  split; [reflexivity|].
  apply (reconcileSpec_order fake.cluster (fake.passContext fake.cluster)
           (fake.limitadorObj fake.plain)
           (fake.start fake.cluster fake.withOldBudget)
           None
           (mkState (fake.withOldBudget : World fake.cluster)
              [Entered StepService])
           None
           (mkState (fake.withOldBudget : World fake.cluster)
              [Entered StepService; Entered StepPVC])
           ctrl.zero None
           (mkState (fake.withOldBudget : World fake.cluster)
              [Entered StepService; Entered StepPVC; Entered StepDeployment])
           None
           (mkState (fake.withOldBudget : World fake.cluster)
              [Entered StepService; Entered StepPVC; Entered StepDeployment;
               Entered StepLimitsConfigMap])
           None
           (mkState (∅ : World fake.cluster)
              [Entered StepService; Entered StepPVC; Entered StepDeployment;
               Entered StepLimitsConfigMap; Entered StepPdb;
               Got (types.mkNamespacedName "some-ns" "limitador-pdb");
               Deleted fake.oldBudget])
           (ctrl.zero, None)
           (mkState (∅ : World fake.cluster)
              [Entered StepService; Entered StepPVC; Entered StepDeployment;
               Entered StepLimitsConfigMap; Entered StepPdb;
               Got (types.mkNamespacedName "some-ns" "limitador-pdb");
               Deleted fake.oldBudget])
           eq_refl eq_refl eq_refl eq_refl eq_refl eq_refl);
    reflexivity.
Defined.

(** C8 on a pass whose Deployment reconciler returns a requeue together
    with an error. *)
Lemma reconcileSpec_requeue_drops_error_witness :
  reconcileDeployment (fake.platform fake.requeueWithError)
    (fake.passContext (fake.platform fake.requeueWithError))
    (fake.limitadorObj fake.plain)
    (mkState (∅ : World (fake.platform fake.requeueWithError))
       [Entered StepService; Entered StepPVC])
  = ((fake.requeue, Some fake.boom),
     mkState (∅ : World (fake.platform fake.requeueWithError))
       [Entered StepService; Entered StepPVC; Entered StepDeployment])
  ∧ reconcileSpec (fake.platform fake.requeueWithError)
      (fake.passContext (fake.platform fake.requeueWithError))
      (fake.limitadorObj fake.plain)
      (fake.start (fake.platform fake.requeueWithError) ∅)
    = ((fake.requeue, None),
       mkState (∅ : World (fake.platform fake.requeueWithError))
         [Entered StepService; Entered StepPVC; Entered StepDeployment]).
Proof.
  split; [reflexivity|].
  apply (reconcileSpec_requeue_drops_error
           (fake.platform fake.requeueWithError)
           (fake.passContext (fake.platform fake.requeueWithError))
           (fake.limitadorObj fake.plain)
           (fake.start (fake.platform fake.requeueWithError) ∅)
           (mkState (∅ : World (fake.platform fake.requeueWithError))
              [Entered StepService])
           (mkState (∅ : World (fake.platform fake.requeueWithError))
              [Entered StepService; Entered StepPVC])
           fake.requeue fake.boom
           (mkState (∅ : World (fake.platform fake.requeueWithError))
              [Entered StepService; Entered StepPVC; Entered StepDeployment])
           eq_refl eq_refl eq_refl eq_refl).
Defined.

End Runs.

(** * Further properties *)

(** ** Annotation helpers: what tagging changes and what it keeps *)

Section Tagging.
Import client helpers.
Context `{Object T}.

(** What one call does to the store: one map, the object's own or a
    fresh one, gains the delete annotation. *)
Lemma TagObjectToDelete_run (obj obj' : T) (h h' : gomap.store) :
  TagObjectToDelete obj h = Some (obj', h') →
  ∃ l m,
    GetAnnotations obj' = Some l
    ∧ h' = <[l := <[DeleteTagAnnotation := "true"]> m]> h
    ∧ ((GetAnnotations obj = Some l ∧ h !! l = Some m ∧ obj' = obj)
       ∨ (GetAnnotations obj = None ∧ h !! l = None ∧ m = ∅
          ∧ obj' = SetAnnotations (Some l) obj)).
Proof.
  unfold TagObjectToDelete, gomap.make, gomap.assign.
  destruct (GetAnnotations obj) as [l|] eqn:Hget.
  - destruct (h !! l) as [m|] eqn:Hl; simpl; intros ?; simplify_eq.
    exists l, m. split_and!; [done|done|]. left. done.
  - rewrite lookup_insert_eq. simpl. intros ?; simplify_eq.
    exists (fresh (dom h)), ∅.
    split_and!; [apply GetAnnotations_SetAnnotations|by rewrite insert_insert_eq|].
    right. split_and!; [done| |done|done].
    apply not_elem_of_dom, is_fresh.
Qed.

(** X1. Tagging keeps every map of the store and changes at most the
    object's own: each map that existed before is still there, with the
    delete annotation added if it is the object's map and untouched
    otherwise. In particular all other annotations of the object
    survive. *)
Theorem TagObjectToDelete_keeps_annotations (obj obj' : T) (h h' : gomap.store) :
  TagObjectToDelete obj h = Some (obj', h') →
  ∀ l m, h !! l = Some m →
    h' !! l = Some (if decide (GetAnnotations obj = Some l)
                    then <[DeleteTagAnnotation := "true"]> m else m).
Proof.
  intros Hrun l m Hl.
  destruct (TagObjectToDelete_run _ _ _ _ Hrun)
    as (l0 & m0 & Hget' & -> & [(Hget & Hl0 & ->)|(Hget & Hl0 & -> & ->)]).
  - rewrite Hget. case_decide; simplify_eq.
    + by rewrite lookup_insert_eq.
    + rewrite lookup_insert_ne; [done|congruence].
  - rewrite Hget. case_decide; [done|].
    rewrite lookup_insert_ne; [done|congruence].
Qed.

(** X2. Tagging is idempotent: tagging the tagged object again returns
    the same object and the same store. *)
Theorem TagObjectToDelete_idempotent (obj obj' : T) (h h' : gomap.store) :
  TagObjectToDelete obj h = Some (obj', h') →
  TagObjectToDelete obj' h' = Some (obj', h').
Proof.
  intros Hrun.
  destruct (TagObjectToDelete_run _ _ _ _ Hrun) as (l & m & Hget' & -> & _).
  unfold TagObjectToDelete, gomap.assign. rewrite Hget'.
  rewrite lookup_insert_eq. simpl.
  by rewrite !insert_insert_eq.
Qed.

(** X3. After one object is tagged, another object counts as tagged
    exactly when it shares the tagged object's annotation map or was
    tagged already: tagging reaches the objects that alias the map and
    no others, and it never removes a tag. *)
Theorem TagObjectToDelete_reaches_aliases (obj obj' other : T)
    (h h' : gomap.store) :
  TagObjectToDelete obj h = Some (obj', h') →
  IsObjectTaggedToDelete other h'
  = bool_decide (GetAnnotations other = GetAnnotations obj')
    || IsObjectTaggedToDelete other h.
Proof.
  intros Hrun.
  destruct (TagObjectToDelete_run _ _ _ _ Hrun) as (l & m & Hget' & -> & _).
  rewrite Hget'. unfold IsObjectTaggedToDelete, gomap.index.
  destruct (GetAnnotations other) as [l'|]; [|by rewrite bool_decide_eq_false_2].
  case_bool_decide as Hl; simplify_eq.
  - by rewrite !lookup_insert_eq.
  - rewrite lookup_insert_ne; [done|congruence].
Qed.

End Tagging.

(** X1 on an object whose map already carries another annotation. *)
Lemma TagObjectToDelete_keeps_annotations_witness :
  helpers.TagObjectToDelete samples.metaA samples.owned
  = Some (samples.metaA, samples.ownedTagged)
  ∧ samples.ownedTagged !! 1%positive
    = Some (<[ helpers.DeleteTagAnnotation := "true" ]> {[ "owner" := "ops" ]}).
Proof.
  split; [reflexivity|].
  apply (@TagObjectToDelete_keeps_annotations _ client.ObjectMeta_Object
           samples.metaA samples.metaA samples.owned samples.ownedTagged
           eq_refl 1%positive {[ "owner" := "ops" ]} eq_refl).
Defined.

(** X2 on an object without an annotation map. *)
Lemma TagObjectToDelete_idempotent_witness :
  helpers.TagObjectToDelete samples.untagged ∅
  = Some (samples.tagged, samples.onlyTag)
  ∧ helpers.TagObjectToDelete samples.tagged samples.onlyTag
    = Some (samples.tagged, samples.onlyTag).
Proof.
  split; [reflexivity|].
  apply (@TagObjectToDelete_idempotent _ client.ObjectMeta_Object
           samples.untagged samples.tagged ∅ samples.onlyTag).
  reflexivity.
Defined.

(** X3 on two maps: the object on the second map stays untagged. *)
Lemma TagObjectToDelete_reaches_aliases_witness :
  helpers.TagObjectToDelete samples.metaA samples.two
  = Some (samples.metaA, samples.twoTagged)
  ∧ helpers.IsObjectTaggedToDelete samples.metaC samples.twoTagged
    = bool_decide (client.GetAnnotations samples.metaC
                   = client.GetAnnotations samples.metaA)
      || helpers.IsObjectTaggedToDelete samples.metaC samples.two.
Proof.
  split; [reflexivity|].
  apply (@TagObjectToDelete_reaches_aliases _ client.ObjectMeta_Object
           samples.metaA samples.metaA samples.metaC
           samples.two samples.twoTagged).
  reflexivity.
Defined.

(** ** Describing an object *)

Section Describing.
Import objectinfo.

Lemma append_slash_inj (k1 k2 n1 n2 : string) :
  hasSlash k1 = false → hasSlash k2 = false →
  k1 +:+ "/" +:+ n1 = k2 +:+ "/" +:+ n2 → k1 = k2 ∧ n1 = n2.
Proof.
  revert k2. induction k1 as [|c k1 IH]; intros [|c2 k2]; simpl;
    intros H1 H2 Heq.
  - by simplify_eq.
  - injection Heq as <- _. apply orb_false_iff in H2 as [H2 _].
    by apply bool_decide_eq_false in H2.
  - injection Heq as -> _. apply orb_false_iff in H1 as [H1 _].
    by apply bool_decide_eq_false in H1.
  - injection Heq as -> Heq.
    apply orb_false_iff in H1 as [_ H1]. apply orb_false_iff in H2 as [_ H2].
    destruct (IH k2 H1 H2 Heq) as [-> ->]. done.
Qed.

(** X4. The description of an object, its kind and its name joined by
    a slash, identifies both, as long as kinds contain no slash: two
    objects with the same description have the same kind and the same
    name. *)
Theorem ObjectInfo_identifies `{Described T} (o1 o2 : T) :
  hasSlash (schema.Kind (GroupVersionKind o1)) = false →
  hasSlash (schema.Kind (GroupVersionKind o2)) = false →
  ObjectInfo o1 = ObjectInfo o2 →
  schema.Kind (GroupVersionKind o1) = schema.Kind (GroupVersionKind o2)
  ∧ GetName o1 = GetName o2.
Proof. unfold ObjectInfo. apply append_slash_inj. Qed.

(** With a slash in the kind, two different objects can share one
    description. *)
Example ObjectInfo_ambiguous :
  ObjectInfo ("a/b", "c") = ObjectInfo ("a", "b/c").
Proof. reflexivity. Qed.

End Describing.

(** X4 on a Deployment called [limitador]. *)
Lemma ObjectInfo_identifies_witness :
  objectinfo.ObjectInfo ("Deployment", "limitador") = "Deployment/limitador"
  ∧ schema.Kind (objectinfo.GroupVersionKind ("Deployment", "limitador"))
    = schema.Kind (objectinfo.GroupVersionKind ("Deployment", "limitador"))
  ∧ objectinfo.GetName ("Deployment", "limitador")
    = objectinfo.GetName ("Deployment", "limitador").
Proof.
  split; [reflexivity|].
  apply (ObjectInfo_identifies ("Deployment", "limitador")
           ("Deployment", "limitador")); reflexivity.
Defined.

(** ** The pass: early exits, result shapes and read-only steps *)

Section PassEdges.
Import limitadorv1alpha1 limitador controllers design shape.
Context (P : Platform).
Implicit Types (ctx : logr.Context) (o : Limitador.t) (s : State P).

(** X5. A pass does nothing beyond fetching the declaration, neither
    entering a reconciler nor reconciling status, in three cases: the
    fetch fails, and then a not-found error is a success while any
    other error is returned as it is; debug logging is on and the dump
    of the declaration fails, and that error is returned; the
    declaration carries a deletion timestamp, which is a success. *)
Theorem Reconcile_early_exits eventCtx req s r w1 :
  ClientGetLimitador P (ctrl.NamespacedName req) (world s) = (r, w1) →
  (∀ err, r = Err err →
     Reconcile P eventCtx req s
     = ((ctrl.zero, if errors.IsNotFound err then None else Some err),
        mkState w1 (trace s)))
  ∧ (∀ o err, r = Ok o →
     logr.V1Enabled (Logger P) = true → MarshalIndent P o = Err err →
     Reconcile P eventCtx req s = ((ctrl.zero, Some err), mkState w1 (trace s)))
  ∧ (∀ o ts, r = Ok o →
     (logr.V1Enabled (Logger P) = true → is_Err (MarshalIndent P o) = false) →
     Limitador.GetDeletionTimestamp o = Some ts →
     Reconcile P eventCtx req s = ((ctrl.zero, None), mkState w1 (trace s))).
Proof.
  intros Hget. unfold Reconcile. unfold_monad. rewrite Hget. split_and!.
  - intros err ->. by destruct (errors.IsNotFound err).
  - intros o err -> Hverbose Hdump. simpl. by rewrite Hverbose, Hdump.
  - intros o ts -> Hdump Hts. simpl.
    destruct (logr.V1Enabled (Logger P)).
    + specialize (Hdump eq_refl). destruct (MarshalIndent P o); [|done].
      by rewrite Hts.
    + by rewrite Hts.
Qed.

(** X6. Spec reconciliation returns a well-formed pair: an error comes
    with the empty result, and a result that is not empty asks for a
    requeue and comes without error. A Deployment result that only
    sets a delay, without the requeue flag, is therefore dropped. *)
Theorem reconcileSpec_wellFormed ctx o s :
  wellFormed (reconcileSpec P ctx o s).1.
Proof.
  unfold reconcileSpec, wellFormed. unfold_monad.
  destruct (reconcileService P ctx o s) as [[e1|] s1]; [by split|].
  destruct (reconcilePVC P ctx o s1) as [[e2|] s2]; [by split|].
  destruct (reconcileDeployment P ctx o s2) as [[r3 e3] s3].
  destruct (ctrl.Requeue r3) eqn:Hrequeue.
  { simpl. split; [by intros [? [=]]|done]. }
  destruct e3 as [e3|]; [by split|].
  destruct (reconcileLimitsConfigMap P ctx o s3) as [[e4|] s4]; [by split|].
  destruct (reconcilePdb P ctx o s4) as [[e5|] s5]; by split.
Qed.

(** X7. A pass returns a well-formed pair: whenever it returns an
    error the result is empty, and whenever the result is not empty it
    asks for a requeue and there is no error. A result of spec or status
    reconciliation that only sets a delay is dropped. *)
Theorem Reconcile_wellFormed eventCtx req s :
  wellFormed (Reconcile P eventCtx req s).1.
Proof.
  unfold Reconcile, wellFormed. unfold_monad.
  destruct (ClientGetLimitador P _ _) as [[o|err] w1].
  2: { destruct (errors.IsNotFound err); by split. }
  simpl.
  destruct (if logr.V1Enabled (Logger P) then _ else _); [by split|].
  destruct (Limitador.GetDeletionTimestamp o); [by split|].
  destruct (reconcileSpec P _ o _) as [[specResult specErr] s2]. simpl.
  destruct (reconcileStatus P o specErr (world s2))
    as [[statusResult statusErr] w3].
  destruct specErr; [by split|]. destruct statusErr; [by split|].
  destruct (ctrl.Requeue specResult) eqn:?.
  { simpl. split; [by intros [? [=]]|done]. }
  destruct (ctrl.Requeue statusResult) eqn:?.
  { simpl. split; [by intros [? [=]]|done]. }
  by split.
Qed.

(** X8. Without a logger in the context every per-kind reconciler
    fails with the logger lookup's error before it calls the cluster,
    and spec reconciliation stops in the Service reconciler with that
    error, the cluster untouched. *)
Theorem reconcilers_need_logger ctx o s err :
  logr.FromContext ctx = Err err →
  reconcileService P ctx o s
  = (Some err, mkState (world s) (trace s ++ [Entered StepService]))
  ∧ reconcilePVC P ctx o s
    = (Some err, mkState (world s) (trace s ++ [Entered StepPVC]))
  ∧ reconcileDeployment P ctx o s
    = ((ctrl.zero, Some err),
       mkState (world s) (trace s ++ [Entered StepDeployment]))
  ∧ reconcileLimitsConfigMap P ctx o s
    = (Some err, mkState (world s) (trace s ++ [Entered StepLimitsConfigMap]))
  ∧ reconcilePdb P ctx o s
    = (Some err, mkState (world s) (trace s ++ [Entered StepPdb]))
  ∧ reconcileSpec P ctx o s
    = ((ctrl.zero, Some err),
       mkState (world s) (trace s ++ [Entered StepService])).
Proof.
  intros Hctx.
  unfold reconcileSpec, reconcileService, reconcilePVC, reconcileDeployment,
    reconcileLimitsConfigMap, reconcilePdb.
  unfold_monad. simpl. rewrite Hctx. by split_and!.
Qed.

(** X9. The URL environment variable is asked for with the secret
    reference of the very backend that storage resolution picks: redis
    if set, else redis-cached; a disk or in-memory declaration gets no
    environment variable and no error. *)
Theorem getDeploymentEnvVar_follows_backend o :
  getDeploymentEnvVar P o
  = match declaredSecretRef o with
    | Some secretRef => DeploymentEnvVar P secretRef
    | None => Ok []
    end.
Proof.
  unfold getDeploymentEnvVar, declaredSecretRef.
  by destruct (LimitadorSpec.Storage (Limitador.Spec o))
    as [[[redis|] [redisCached|] disk]|].
Qed.

Lemma getDeploymentStorageOptions_state ctx o s :
  (getDeploymentStorageOptions P ctx o s).2 = s.
Proof.
  unfold getDeploymentStorageOptions.
  by destruct (LimitadorSpec.Storage (Limitador.Spec o))
    as [[[redis|] [redisCached|] [disk|]]|].
Qed.

Lemma getDeploymentOptions_state ctx o s :
  (getDeploymentOptions P ctx o s).2 = s.
Proof.
  pose proof (getDeploymentStorageOptions_state ctx o s) as Hstate.
  unfold getDeploymentOptions. unfold_monad.
  destruct (getDeploymentStorageOptions P ctx o s) as [[so|err] s1];
    simpl in *; subst s1; [|done].
  by destruct (getDeploymentEnvVar P o).
Qed.

(** X10. Resolving the deployment options only reads: it leaves the
    cluster and the trace as they were. It fails exactly when storage
    resolution fails or, storage resolution having succeeded, when the
    environment variable cannot be built, and returns that error; the
    storage error comes first. On success the update strategy is the
    one storage resolution chose. *)
Theorem getDeploymentOptions_reads_only ctx o s :
  (getDeploymentOptions P ctx o s).2 = s
  ∧ match (getDeploymentStorageOptions P ctx o s).1,
          getDeploymentEnvVar P o with
    | Err err, _ => (getDeploymentOptions P ctx o s).1 = Err err
    | Ok _, Err err => (getDeploymentOptions P ctx o s).1 = Err err
    | Ok storageOptions, Ok envVar =>
        ∃ options,
          (getDeploymentOptions P ctx o s).1 = Ok options
          ∧ DeploymentStrategy options
            = limitador.DeploymentStrategy storageOptions
          ∧ Command options = DeploymentCommand P o storageOptions
          ∧ EnvVars options = envVar
    end.
Proof.
  pose proof (getDeploymentStorageOptions_state ctx o s) as Hstate.
  unfold getDeploymentOptions. unfold_monad.
  destruct (getDeploymentStorageOptions P ctx o s) as [[so|err] s1].
  - simpl in *. subst s1.
    destruct (getDeploymentEnvVar P o) as [envVar|err]; [|done].
    split; [done|]. eexists. by split_and!.
  - simpl in *. by subst s1.
Qed.

(** X11. When the deployment options cannot be resolved, the
    Deployment reconciler (called with a logger in its context) returns
    that error with the empty result and does not call the cluster. *)
Theorem reconcileDeployment_unresolved eventCtx logger o s err :
  (getDeploymentOptions P (logr.NewContext eventCtx logger) o s).1 = Err err →
  reconcileDeployment P (logr.NewContext eventCtx logger) o s
  = ((ctrl.zero, Some err),
     mkState (world s) (trace s ++ [Entered StepDeployment])).
Proof.
  intros Hoptions. unfold reconcileDeployment. unfold_monad. simpl.
  pose proof (getDeploymentOptions_state
                (logr.NewContext eventCtx logger) o
                {| world := world s;
                   trace := trace s ++ [Entered StepDeployment] |})
    as Hstate.
  assert ((getDeploymentOptions P (logr.NewContext eventCtx logger) o
             {| world := world s;
                trace := trace s ++ [Entered StepDeployment] |}).1 = Err err)
    as Herr.
  { revert Hoptions. unfold getDeploymentOptions, getDeploymentStorageOptions.
    unfold_monad.
    destruct (LimitadorSpec.Storage (Limitador.Spec o))
      as [[[redis|] [redisCached|] [disk|]]|];
      simpl; repeat (case_match; simpl); done. }
  clear Hoptions.
  destruct (getDeploymentOptions P _ o _) as [r s1]. simpl in *.
  by subst.
Qed.

(** X12. With a disruption-budget policy declared, the
    PodDisruptionBudget reconciler (called with a logger in its context)
    never looks a budget up and never deletes one. An invalid policy
    and a failing owner reference return their error with the cluster
    untouched; otherwise the desired budget is applied with the
    disruption-budget mutator and the result is that of the apply. *)
Theorem reconcilePdb_with_policy eventCtx logger o s policy e s' :
  LimitadorSpec.PodDisruptionBudget (Limitador.Spec o) = Some policy →
  reconcilePdb P (logr.NewContext eventCtx logger) o s = (e, s') →
  added s s' = [Entered StepPdb]
  ∧ (∀ err, limitador_ValidatePDB P (limitador_PodDisruptionBudget P o)
            = Some err →
       e = Some err ∧ world s' = world s)
  ∧ (limitador_ValidatePDB P (limitador_PodDisruptionBudget P o) = None →
     ∀ err, (SetOwnerReference P _ o (limitador_PodDisruptionBudget P o)).2
            = Some err →
       e = Some err ∧ world s' = world s)
  ∧ (limitador_ValidatePDB P (limitador_PodDisruptionBudget P o) = None →
     (SetOwnerReference P _ o (limitador_PodDisruptionBudget P o)).2 = None →
     (e, world s')
     = ReconcilePodDisruptionBudget P
         (SetOwnerReference P _ o (limitador_PodDisruptionBudget P o)).1
         reconcilers.PodDisruptionBudgetMutator (world s)).
Proof.
  intros Hpolicy Hrun. unfold reconcilePdb in Hrun. unfold_monad.
  simpl in Hrun. rewrite Hpolicy in Hrun.
  destruct (limitador_ValidatePDB P _) as [verr|].
  { simplify_eq. split_and!; [by apply added_app|by intros ? [= ->]|done..]. }
  destruct (SetOwnerReference P _ o _) as [pdb [oerr|]]; simpl in *.
  { simplify_eq. split_and!; [by apply added_app|done|by intros _ ? [= ->]|done]. }
  destruct (ReconcilePodDisruptionBudget P pdb _ (world s)) as [[aerr|] w2];
    simplify_eq; (split_and!; [by apply added_app|done..]).
Qed.

End PassEdges.

(** ** The ConfigMap mutator: what it keeps, and when it crashes *)

Section MutatorEdges.
Import controllers design.
Context (P : Platform).
#[local] Existing Instance RateLimit_eq_dec.

(** Every way the mutator can end. *)
Lemma mutateLimitsConfigMap_cases existingObj desiredObj :
  (∃ err, mutateLimitsConfigMap P existingObj desiredObj
          = Returns (false, Some err, existingObj))
  ∨ (∃ existing desired desiredLimits,
       existingObj = ConfigMapObject existing
       ∧ desiredObj = ConfigMapObject desired
       ∧ Unmarshal P (payload P desired) = Ok desiredLimits
       ∧ ((desiredLimits = carried P existing
           ∧ mutateLimitsConfigMap P existingObj desiredObj
             = Returns (false, None, existingObj))
          ∨ (desiredLimits ≠ carried P existing
             ∧ v1.ConfigMap.Data existing = None
             ∧ mutateLimitsConfigMap P existingObj desiredObj
               = Panics "assignment to entry in nil map")
          ∨ (∃ data,
               desiredLimits ≠ carried P existing
               ∧ v1.ConfigMap.Data existing = Some data
               ∧ mutateLimitsConfigMap P existingObj desiredObj
                 = Returns (true, None,
                            ConfigMapObject
                              (overwritten P existing data (payload P desired)))))).
Proof.
  destruct existingObj as [existing|t]; [|left; by eexists].
  destruct desiredObj as [desired|t]; [|left; by eexists].
  unfold mutateLimitsConfigMap, carried, overwritten.
  destruct (Unmarshal P (payload P desired)) as [desiredLimits|err]
    eqn:Hdesired; [|left; by eexists].
  right. exists existing, desired, desiredLimits. split_and!; [done..|].
  case_bool_decide as Hdiffer.
  - right. destruct (v1.ConfigMap.Data existing) as [data|];
      [right; exists data|left]; by split_and!.
  - left. by split.
Qed.

(** X13. The mutator is idempotent: once it has returned without
    error, running it again on the object it left, against the same
    desired ConfigMap, reports no change and leaves the object as it
    is. *)
Theorem mutateLimitsConfigMap_idempotent existingObj desired updated obj :
  mutateLimitsConfigMap P existingObj (ConfigMapObject desired)
  = Returns (updated, None, obj) →
  mutateLimitsConfigMap P obj (ConfigMapObject desired)
  = Returns (false, None, obj).
Proof.
  intros Hrun.
  destruct (mutateLimitsConfigMap_cases existingObj (ConfigMapObject desired))
    as [[err Herr]|(existing & desired' & limits & -> & [= <-] & Hdesired
                    & [[Hsame Hres]|[(_ & _ & Hres)|(data & _ & _ & Hres)]])];
    rewrite Hrun in *; simplify_eq.
  - by rewrite Hrun.
  - unfold mutateLimitsConfigMap.
    rewrite Hdesired, payload_overwritten, Hdesired.
    by rewrite bool_decide_eq_false_2 by (by intros []).
Qed.

(** X14. The mutator owns one key: whatever it returns, the object it
    leaves is the existing ConfigMap with the same metadata and the
    same value under every other key. *)
Theorem mutateLimitsConfigMap_keeps_other_keys existing desiredObj updated err out :
  mutateLimitsConfigMap P (ConfigMapObject existing) desiredObj
  = Returns (updated, err, out) →
  ∃ obj,
    out = ConfigMapObject obj
    ∧ v1.ConfigMap.ObjectMeta obj = v1.ConfigMap.ObjectMeta existing
    ∧ ∀ k, k ≠ LimitadorConfigFileName P →
        v1.ConfigMap.Data obj ≫= (.!! k) = v1.ConfigMap.Data existing ≫= (.!! k).
Proof.
  intros Hrun.
  destruct (mutateLimitsConfigMap_cases (ConfigMapObject existing) desiredObj)
    as [[e Herr]|(existing' & desired & limits & [= <-] & -> & Hdesired
                  & [[Hsame Hres]|[(_ & _ & Hres)|(data & _ & Hdata & Hres)]])];
    rewrite Hrun in *; simplify_eq; try (by eexists).
  eexists. split_and!; [done..|].
  intros k Hk. rewrite Hdata. unfold overwritten. simpl.
  by rewrite lookup_insert_ne.
Qed.

(** X15. An error never comes with a change: whenever the mutator
    returns an error, for a type mismatch or an undecodable desired
    payload, it reports no update and leaves the existing object
    untouched. *)
Theorem mutateLimitsConfigMap_error_changes_nothing
    existingObj desiredObj updated err out :
  mutateLimitsConfigMap P existingObj desiredObj
  = Returns (updated, Some err, out) →
  updated = false ∧ out = existingObj.
Proof.
  intros Hrun.
  destruct (mutateLimitsConfigMap_cases existingObj desiredObj)
    as [[e Herr]|(existing & desired & limits & -> & -> & Hdesired
                  & [[Hsame Hres]|[(_ & _ & Hres)|(data & _ & _ & Hres)]])];
    rewrite Hrun in *; by simplify_eq.
Qed.

(** X16. The mutator panics in exactly one situation: the existing
    ConfigMap has no data map, the desired payload deserializes, and
    its rule list differs from what the existing ConfigMap carries (the
    rule list of the empty payload). *)
Theorem mutateLimitsConfigMap_panics_iff existing desired :
  (∃ msg, mutateLimitsConfigMap P (ConfigMapObject existing)
            (ConfigMapObject desired) = Panics msg)
  ↔ v1.ConfigMap.Data existing = None
    ∧ ∃ desiredLimits,
        Unmarshal P (payload P desired) = Ok desiredLimits
        ∧ desiredLimits ≠ carried P existing.
Proof.
  split.
  - intros [msg Hpanic].
    destruct (mutateLimitsConfigMap_cases (ConfigMapObject existing)
                (ConfigMapObject desired))
      as [[e Herr]|(existing' & desired' & limits & [= <-] & [= <-] & Hdesired
                    & [[Hsame Hres]|[(Hdiffer & Hdata & Hres)
                                    |(data & Hdiffer & Hdata & Hres)]])];
      rewrite Hpanic in *; simplify_eq. eauto.
  - intros (Hnil & limits & Hlimits & Hdiffer).
    unfold mutateLimitsConfigMap, carried in *. rewrite Hlimits.
    rewrite bool_decide_eq_true_2 by done. rewrite Hnil. eauto.
Qed.

(** X17. Equal payloads are never rewritten: when the existing and the
    desired ConfigMap carry the same text under the rule-list key (both
    may lack it) and that text deserializes, the mutator reports no
    change and does not touch the existing ConfigMap, with or without a
    data map. *)
Theorem mutateLimitsConfigMap_same_payload existing desired desiredLimits :
  payload P existing = payload P desired →
  Unmarshal P (payload P desired) = Ok desiredLimits →
  mutateLimitsConfigMap P (ConfigMapObject existing) (ConfigMapObject desired)
  = Returns (false, None, ConfigMapObject existing).
Proof.
  intros Hsame Hdesired. unfold mutateLimitsConfigMap.
  rewrite Hsame, Hdesired.
  by rewrite bool_decide_eq_false_2 by (by intros []).
Qed.

End MutatorEdges.

(** ** The cluster calls of a pass *)

(** Close a goal about a log: name the calls that were appended. *)
Ltac name_calls :=
  rewrite <-?(assoc_L (++)); simpl;
  first [ eexists; split; [reflexivity|]
        | exists []; split; [by rewrite (right_id_L [] (++))|] ].

Ltac prefix_calls := first [ done | eexists; reflexivity ].

(** Run code on the recording platform. *)
Ltac run_recorded :=
  unfold_monad; simpl in *; unfold spy.logged in *; simpl in *;
  simplify_eq/=; repeat (case_match; simplify_eq/=).

Section Recording.
Import limitadorv1alpha1 limitador controllers design.
Context (P : Platform).
Abbreviation Q := (spy.platform P).
Implicit Types (ctx : logr.Context) (o : Limitador.t) (s : State Q).

Lemma spy_reconcileService ctx o s e s' :
  reconcileService Q ctx o s = (e, s') →
  ∃ c, (world s').2 = ((world s).2 ++ c)%list
       ∧ c `prefix_of` [spy.ApplyService reconcilers.CreateOnlyMutator]
       ∧ (e = None → c = [spy.ApplyService reconcilers.CreateOnlyMutator]).
Proof.
  destruct s as [[w log] t]. unfold reconcileService, spy.logged.
  intros Hrun. run_recorded; name_calls; (split; [prefix_calls|done]).
Qed.

Lemma spy_reconcilePVC ctx o s e s' :
  reconcilePVC Q ctx o s = (e, s') →
  ∃ c, (world s').2 = ((world s).2 ++ c)%list
       ∧ c `prefix_of`
           [spy.ApplyPersistentVolumeClaim reconcilers.CreateOnlyMutator]
       ∧ (e = None →
          c = [spy.ApplyPersistentVolumeClaim reconcilers.CreateOnlyMutator]).
Proof.
  destruct s as [[w log] t]. unfold reconcilePVC, spy.logged.
  intros Hrun. run_recorded; name_calls; (split; [prefix_calls|done]).
Qed.

Lemma spy_getDeploymentOptions ctx o s :
  (getDeploymentOptions Q ctx o s).2 = s.
Proof. apply getDeploymentOptions_state. Qed.

Lemma spy_reconcileDeployment ctx o s r e s' :
  reconcileDeployment Q ctx o s = ((r, e), s') →
  ∃ c, (world s').2 = ((world s).2 ++ c)%list
       ∧ c `prefix_of`
           [spy.ApplyDeployment
              (reconcilers.DeploymentMutator (spy.deploymentMutators o));
            spy.UpgradeDeployment]
       ∧ (e = None →
          c = [spy.ApplyDeployment
                 (reconcilers.DeploymentMutator (spy.deploymentMutators o));
               spy.UpgradeDeployment]).
Proof.
  destruct s as [[w log] t].
  unfold reconcileDeployment, spy.logged, spy.deploymentMutators.
  unfold_monad. simpl. intros Hrun.
  destruct (logr.FromContext ctx).
  2: { simplify_eq/=. name_calls. split; [prefix_calls|done]. }
  pose proof (spy_getDeploymentOptions ctx o
                {| world := (w, log) : World Q;
                   trace := t ++ [Entered StepDeployment] |}) as Hstate.
  destruct (getDeploymentOptions Q ctx o _) as [[opts|err] s1];
    simpl in Hstate; subst s1.
  2: { simplify_eq/=. name_calls. split; [prefix_calls|done]. }
  run_recorded; name_calls; (split; [prefix_calls|done]).
Qed.

Lemma spy_reconcileLimitsConfigMap ctx o s e s' :
  reconcileLimitsConfigMap Q ctx o s = (e, s') →
  ∃ c, (world s').2 = ((world s).2 ++ c)%list
       ∧ c `prefix_of` [spy.ApplyConfigMap; spy.UpgradeConfigMap]
       ∧ (e = None → c = [spy.ApplyConfigMap; spy.UpgradeConfigMap]).
Proof.
  destruct s as [[w log] t]. unfold reconcileLimitsConfigMap, spy.logged.
  intros Hrun. run_recorded; name_calls; (split; [prefix_calls|done]).
Qed.

Lemma spy_reconcilePdb ctx o s e s' :
  reconcilePdb Q ctx o s = (e, s') →
  ∃ c, (world s').2 = ((world s).2 ++ c)%list
       ∧ c `prefix_of`
           match LimitadorSpec.PodDisruptionBudget (Limitador.Spec o) with
           | Some _ => [spy.ApplyBudget reconcilers.PodDisruptionBudgetMutator]
           | None => [spy.GetBudget (budgetKey P o); spy.DeleteBudget]
           end.
Proof.
  destruct s as [[w log] t]. unfold reconcilePdb, spy.logged, budgetKey.
  intros Hrun. run_recorded; name_calls; prefix_calls.
Qed.

(** Place a chunk of calls inside the plan. *)
Ltac within_plan :=
  unfold spy.planned; simpl; repeat apply prefix_cons;
  first [ eassumption
        | etrans; [eassumption|]; eexists; reflexivity
        | apply prefix_nil ].

Lemma spy_reconcileSpec ctx o s :
  ∃ c, (world (reconcileSpec Q ctx o s).2).2 = ((world s).2 ++ c)%list
       ∧ c `prefix_of` spy.planned P o.
Proof.
  unfold reconcileSpec. unfold_monad.
  destruct (reconcileService Q ctx o s) as [e1 s1] eqn:H1.
  apply spy_reconcileService in H1 as (c1 & L1 & Hp1 & Hf1).
  destruct e1 as [e1|].
  { exists c1. split; [done|within_plan]. }
  rewrite (Hf1 eq_refl) in L1. clear Hp1 Hf1 c1.
  destruct (reconcilePVC Q ctx o s1) as [e2 s2] eqn:H2.
  apply spy_reconcilePVC in H2 as (c2 & L2 & Hp2 & Hf2).
  destruct e2 as [e2|].
  { exists (spy.ApplyService reconcilers.CreateOnlyMutator :: c2).
    simpl. rewrite L2, L1, <-(assoc_L (++)). split; [done|within_plan]. }
  rewrite (Hf2 eq_refl) in L2. clear Hp2 Hf2 c2.
  destruct (reconcileDeployment Q ctx o s2) as [[r3 e3] s3] eqn:H3.
  apply spy_reconcileDeployment in H3 as (c3 & L3 & Hp3 & Hf3).
  assert ((world s3).2
          = ((world s).2
             ++ spy.ApplyService reconcilers.CreateOnlyMutator
             :: spy.ApplyPersistentVolumeClaim reconcilers.CreateOnlyMutator
             :: c3)%list) as L3'.
  { by rewrite L3, L2, L1, <-!(assoc_L (++)). }
  clear L1 L2 L3.
  destruct (ctrl.Requeue r3).
  { eexists. split; [exact L3'|within_plan]. }
  destruct e3 as [e3|].
  { eexists. split; [exact L3'|within_plan]. }
  rewrite (Hf3 eq_refl) in L3'. clear Hp3 Hf3 c3.
  destruct (reconcileLimitsConfigMap Q ctx o s3) as [e4 s4] eqn:H4.
  apply spy_reconcileLimitsConfigMap in H4 as (c4 & L4 & Hp4 & Hf4).
  assert ((world s4).2
          = ((world s).2
             ++ spy.ApplyService reconcilers.CreateOnlyMutator
             :: spy.ApplyPersistentVolumeClaim reconcilers.CreateOnlyMutator
             :: spy.ApplyDeployment
                  (reconcilers.DeploymentMutator (spy.deploymentMutators o))
             :: spy.UpgradeDeployment :: c4)%list) as L4'.
  { by rewrite L4, L3', <-!(assoc_L (++)). }
  clear L3' L4.
  destruct e4 as [e4|].
  { eexists. split; [exact L4'|within_plan]. }
  rewrite (Hf4 eq_refl) in L4'. clear Hp4 Hf4 c4.
  destruct (reconcilePdb Q ctx o s4) as [e5 s5] eqn:H5.
  apply spy_reconcilePdb in H5 as (c5 & L5 & Hp5).
  assert ((world s5).2
          = ((world s).2
             ++ spy.ApplyService reconcilers.CreateOnlyMutator
             :: spy.ApplyPersistentVolumeClaim reconcilers.CreateOnlyMutator
             :: spy.ApplyDeployment
                  (reconcilers.DeploymentMutator (spy.deploymentMutators o))
             :: spy.UpgradeDeployment :: spy.ApplyConfigMap
             :: spy.UpgradeConfigMap :: c5)%list) as L5'.
  { by rewrite L5, L4', <-!(assoc_L (++)). }
  destruct e5; (eexists; split; [exact L5'|within_plan]).
Qed.


(** X19. The calls the controller makes during a whole pass. The
    declaration is fetched first. If the fetch fails, if debug logging
    is on and the dump fails, or if the declaration carries a deletion
    timestamp, nothing else is called. Otherwise spec reconciliation
    runs on the fetched declaration, in the state the fetch left; its
    recorded calls, a prefix of the plan of that declaration, follow
    the fetch; and status reconciliation is called exactly once, last,
    with the error that run of spec reconciliation returned. (As for
    spec reconciliation, the Secret read of a redis or redis-cached
    declaration is not in the log.) *)
Theorem Reconcile_follows_plan eventCtx req s r w1 :
  ClientGetLimitador P (ctrl.NamespacedName req) (world s).1 = (r, w1) →
  (∀ err, r = Err err →
     (world (Reconcile Q eventCtx req s).2).2
     = spy.fetched req s)
  ∧ (∀ o err, r = Ok o →
     logr.V1Enabled (Logger P) = true → MarshalIndent P o = Err err →
     (world (Reconcile Q eventCtx req s).2).2 = spy.fetched req s)
  ∧ (∀ o ts, r = Ok o →
     (logr.V1Enabled (Logger P) = true → is_Err (MarshalIndent P o) = false) →
     Limitador.GetDeletionTimestamp o = Some ts →
     (world (Reconcile Q eventCtx req s).2).2 = spy.fetched req s)
  ∧ (∀ o specResult specErr s2, r = Ok o →
     (logr.V1Enabled (Logger P) = true → is_Err (MarshalIndent P o) = false) →
     Limitador.GetDeletionTimestamp o = None →
     reconcileSpec Q (logr.NewContext eventCtx (Logger P)) o
       (mkState ((w1, spy.fetched req s) : World Q) (trace s))
     = ((specResult, specErr), s2) →
     (world (Reconcile Q eventCtx req s).2).2
     = ((world s2).2 ++ [spy.Status specErr])%list
     ∧ spy.fetched req s `prefix_of` (world s2).2
     ∧ spy.calls (spy.fetched req s) s2 `prefix_of` spy.planned P o).
Proof.
  destruct s as [[w log] t]. simpl. intros Hget.
  unfold Reconcile, spy.fetched. unfold_monad.
  simpl. unfold spy.logged at 1 3 5 7. simpl. rewrite Hget. split_and!.
  - intros err ->. by destruct (errors.IsNotFound err).
  - intros o err -> Hverbose Hdump. simpl. by rewrite Hverbose, Hdump.
  - intros o ts -> Hdump Hts. simpl.
    destruct (logr.V1Enabled (Logger P)).
    + specialize (Hdump eq_refl). destruct (MarshalIndent P o); [|done].
      by rewrite Hts.
    + by rewrite Hts.
  - intros o specResult specErr s2 -> Hdump Hlive Hspec. simpl.
    assert ((if logr.V1Enabled (Logger P)
             then match MarshalIndent P o with
                  | Ok _ => None
                  | Err err => Some err
                  end
             else None) = None) as Hdumped.
    { destruct (logr.V1Enabled (Logger P)); [|done].
      specialize (Hdump eq_refl). by destruct (MarshalIndent P o). }
    rewrite Hdumped, Hlive.
    destruct (spy_reconcileSpec (logr.NewContext eventCtx (Logger P)) o
                (mkState ((w1, (log ++ [spy.GetLimitador (ctrl.NamespacedName req)])%list)
                            : World Q) t))
      as (c0 & Hlog & Hplan).
    simpl in Hspec, Hlog. rewrite Hspec in Hlog |- *. simpl in Hlog |- *.
    unfold spy.logged. simpl.
    destruct s2 as [[w2 log2] t2]. simpl in *. subst log2.
    split_and!.
    + destruct (reconcileStatus P o specErr w2) as [[statusResult statusErr] w3].
      by repeat case_match.
    + by exists c0.
    + unfold spy.calls. simpl. by rewrite drop_app_length.
Qed.

End Recording.

(** ** The further properties on concrete passes *)

Section MoreRuns.
Import controllers design.

(** X5 on a cluster without the declaration. *)
Lemma Reconcile_early_exits_witness :
  ClientGetLimitador (fake.platform samples.missing)
    (ctrl.NamespacedName fake.request)
    (world (fake.start (fake.platform samples.missing) ∅))
  = (Err (StatusNotFound "limitadors not found"), ∅)
  ∧ Reconcile (fake.platform samples.missing) fake.background fake.request
      (fake.start (fake.platform samples.missing) ∅)
    = ((ctrl.zero, None),
       mkState (∅ : World (fake.platform samples.missing)) []).
Proof.
  split; [reflexivity|].
  apply (proj1 (Reconcile_early_exits (fake.platform samples.missing)
                  fake.background fake.request
                  (fake.start (fake.platform samples.missing) ∅)
                  (Err (StatusNotFound "limitadors not found")) ∅ eq_refl)
           (StatusNotFound "limitadors not found") eq_refl).
Defined.

(** X8 on the background context, which carries no logger. *)
Lemma reconcilers_need_logger_witness :
  logr.FromContext fake.background
  = Err (ErrorString "no logr.Logger was present")
  ∧ reconcileSpec fake.cluster fake.background (fake.limitadorObj fake.plain)
      (fake.start fake.cluster fake.withOldBudget)
    = ((ctrl.zero, Some (ErrorString "no logr.Logger was present")),
       mkState (fake.withOldBudget : World fake.cluster) [Entered StepService]).
Proof.
  split; [reflexivity|].
  apply (reconcilers_need_logger fake.cluster fake.background
           (fake.limitadorObj fake.plain)
           (fake.start fake.cluster fake.withOldBudget)
           (ErrorString "no logr.Logger was present") eq_refl).
Defined.

(** X11 on a cached redis declaration without a secret reference. *)
Lemma reconcileDeployment_unresolved_witness :
  (getDeploymentOptions samples.unresolved
     (logr.NewContext fake.background (Logger samples.unresolved))
     (fake.limitadorObj fake.cachedNoRef)
     (fake.start samples.unresolved ∅)).1
  = Err (ErrorString "there's no ConfigSecretRef set")
  ∧ reconcileDeployment samples.unresolved
      (logr.NewContext fake.background (Logger samples.unresolved))
      (fake.limitadorObj fake.cachedNoRef) (fake.start samples.unresolved ∅)
    = ((ctrl.zero, Some (ErrorString "there's no ConfigSecretRef set")),
       mkState (∅ : World samples.unresolved) [Entered StepDeployment]).
Proof.
  split; [reflexivity|].
  apply (reconcileDeployment_unresolved samples.unresolved fake.background
           (Logger samples.unresolved) (fake.limitadorObj fake.cachedNoRef)
           (fake.start samples.unresolved ∅)
           (ErrorString "there's no ConfigSecretRef set") eq_refl).
Defined.

(** X12 on a declaration with a policy and a cluster that holds the
    budget of an earlier pass: the budget is applied, not deleted. *)
Lemma reconcilePdb_with_policy_witness :
  reconcilePdb samples.guarded
    (logr.NewContext fake.background (Logger samples.guarded))
    (fake.limitadorObj samples.withPolicy)
    (fake.start samples.guarded fake.withOldBudget)
  = (None,
     mkState ({[ ("some-ns", "limitador-pdb") := samples.desiredBudget ]}
                : World samples.guarded)
       [Entered StepPdb])
  ∧ added (fake.start samples.guarded fake.withOldBudget)
      (mkState ({[ ("some-ns", "limitador-pdb") := samples.desiredBudget ]}
                  : World samples.guarded)
         [Entered StepPdb])
    = [Entered StepPdb].
Proof.
  split; [reflexivity|].
  apply (reconcilePdb_with_policy samples.guarded fake.background
           (Logger samples.guarded) (fake.limitadorObj samples.withPolicy)
           (fake.start samples.guarded fake.withOldBudget)
           (limitadorv1alpha1.PodDisruptionBudgetType.mk (Some 1) None)
           None
           (mkState ({[ ("some-ns", "limitador-pdb") := samples.desiredBudget ]}
                       : World samples.guarded)
              [Entered StepPdb])).
  - reflexivity.
  - reflexivity.
Defined.

(** X13 on an existing payload that is rewritten by the first run. *)
Lemma mutateLimitsConfigMap_idempotent_witness :
  mutateLimitsConfigMap fake.cluster
    (ConfigMapObject fake.brokenExisting) (ConfigMapObject fake.emptyDesired)
  = Returns (true, None, ConfigMapObject samples.rewritten)
  ∧ mutateLimitsConfigMap fake.cluster
      (ConfigMapObject samples.rewritten) (ConfigMapObject fake.emptyDesired)
    = Returns (false, None, ConfigMapObject samples.rewritten).
Proof.
  split; [reflexivity|].
  apply (mutateLimitsConfigMap_idempotent fake.cluster
           (ConfigMapObject fake.brokenExisting) fake.emptyDesired true
           (ConfigMapObject samples.rewritten)).
  reflexivity.
Defined.

(** X14 on the same run. *)
Lemma mutateLimitsConfigMap_keeps_other_keys_witness :
  mutateLimitsConfigMap fake.cluster
    (ConfigMapObject fake.brokenExisting) (ConfigMapObject fake.emptyDesired)
  = Returns (true, None, ConfigMapObject samples.rewritten)
  ∧ ∃ obj,
      ConfigMapObject samples.rewritten = ConfigMapObject obj
      ∧ v1.ConfigMap.ObjectMeta obj = v1.ConfigMap.ObjectMeta fake.brokenExisting
      ∧ ∀ k, k ≠ LimitadorConfigFileName fake.cluster →
          v1.ConfigMap.Data obj ≫= (.!! k)
          = v1.ConfigMap.Data fake.brokenExisting ≫= (.!! k).
Proof.
  split; [reflexivity|].
  apply (mutateLimitsConfigMap_keeps_other_keys fake.cluster
           fake.brokenExisting (ConfigMapObject fake.emptyDesired) true None
           (ConfigMapObject samples.rewritten)).
  reflexivity.
Defined.

(** X15 on a desired payload that does not deserialize. *)
Lemma mutateLimitsConfigMap_error_changes_nothing_witness :
  mutateLimitsConfigMap fake.cluster
    (ConfigMapObject fake.emptyDesired) (ConfigMapObject fake.brokenExisting)
  = Returns (false, Some (ErrorString "error unmarshaling JSON"),
             ConfigMapObject fake.emptyDesired)
  ∧ false = false
  ∧ ConfigMapObject fake.emptyDesired = ConfigMapObject fake.emptyDesired.
Proof.
  split; [reflexivity|].
  apply (mutateLimitsConfigMap_error_changes_nothing fake.cluster
           (ConfigMapObject fake.emptyDesired)
           (ConfigMapObject fake.brokenExisting) false
           (ErrorString "error unmarshaling JSON")
           (ConfigMapObject fake.emptyDesired)).
  reflexivity.
Defined.

(** X17 on two ConfigMaps without a data map. *)
Lemma mutateLimitsConfigMap_same_payload_witness :
  payload fake.cluster fake.noData = payload fake.cluster fake.noData
  ∧ Unmarshal fake.cluster (payload fake.cluster fake.noData) = Ok None
  ∧ mutateLimitsConfigMap fake.cluster
      (ConfigMapObject fake.noData) (ConfigMapObject fake.noData)
    = Returns (false, None, ConfigMapObject fake.noData).
Proof.
  split; [reflexivity|]. split; [reflexivity|].
  apply (mutateLimitsConfigMap_same_payload fake.cluster
           fake.noData fake.noData None); reflexivity.
Defined.

(** X19 on a pass in which every call succeeds: the fetch, the whole
    plan, then status reconciliation with a nil error. *)
Lemma Reconcile_follows_plan_witness :
  ClientGetLimitador fake.cluster (ctrl.NamespacedName fake.request)
    (world samples.recordedStart).1
  = (Ok (fake.limitadorObj fake.plain), fake.withOldBudget)
  ∧ reconcileSpec samples.recorded
      (logr.NewContext fake.background (Logger fake.cluster))
      (fake.limitadorObj fake.plain)
      (mkState ((fake.withOldBudget,
                 spy.fetched fake.request samples.recordedStart)
                  : World samples.recorded) (trace samples.recordedStart))
    = ((ctrl.zero, None), samples.recordedAfterSpec)
  ∧ (world (Reconcile samples.recorded fake.background fake.request
              samples.recordedStart).2).2
    = ((world samples.recordedAfterSpec).2 ++ [spy.Status None])%list
  ∧ spy.fetched fake.request samples.recordedStart
    `prefix_of` (world samples.recordedAfterSpec).2
  ∧ spy.calls (spy.fetched fake.request samples.recordedStart)
      samples.recordedAfterSpec
    `prefix_of` spy.planned fake.cluster (fake.limitadorObj fake.plain).
Proof.
  split; [reflexivity|]. split; [reflexivity|].
  apply (proj2 (proj2 (proj2
           (Reconcile_follows_plan fake.cluster fake.background fake.request
              samples.recordedStart (Ok (fake.limitadorObj fake.plain))
              fake.withOldBudget eq_refl)))
           (fake.limitadorObj fake.plain) ctrl.zero None
           samples.recordedAfterSpec eq_refl (λ _, eq_refl) eq_refl).
  reflexivity.
Defined.

(** The read the log does not show: for a redis declaration whose
    Secret is missing, spec reconciliation ends with the cluster's
    not-found error for the Secret, and the log holds the Service and
    PersistentVolumeClaim applies only. *)
Example reconcileSpec_recorded_redis :
  reconcileSpec (spy.platform (fake.platform (fake.quiet samples.redisMissing)))
    (fake.passContext fake.cluster) (fake.limitadorObj samples.redisMissing)
    (mkState ((∅, []) : World (spy.platform
                                 (fake.platform (fake.quiet samples.redisMissing))))
       [])
  = ((ctrl.zero, Some (StatusNotFound "secrets notexisting not found")),
     mkState ((∅, [spy.ApplyService reconcilers.CreateOnlyMutator;
                   spy.ApplyPersistentVolumeClaim reconcilers.CreateOnlyMutator])
                : World (spy.platform
                           (fake.platform (fake.quiet samples.redisMissing))))
       [Entered StepService; Entered StepPVC; Entered StepDeployment]).
Proof. reflexivity. Qed.

(** X18 on a pass in which every call succeeds: the whole plan is
    carried out. *)
Example reconcileSpec_recorded :
  (world (reconcileSpec (spy.platform fake.cluster) (fake.passContext fake.cluster)
            (fake.limitadorObj fake.plain)
            (mkState ((fake.withOldBudget, []) : World (spy.platform fake.cluster))
               [])).2).2
  = spy.planned fake.cluster (fake.limitadorObj fake.plain).
Proof. reflexivity. Qed.

End MoreRuns.

(** ** What the result of spec reconciliation tells *)

Section Outcome.
Import limitadorv1alpha1 limitador controllers design.
Context (P : Platform).

(** X20. The pair spec reconciliation returns tells how far it got: a
    clean success (empty result, no error) means all five reconcilers
    were entered, in order; a requeue means it stopped after the
    Deployment reconciler, the ConfigMap and PodDisruptionBudget
    reconcilers not entered. *)
Theorem reconcileSpec_outcome_tells ctx o (s : State P) :
  ((reconcileSpec P ctx o s).1 = (ctrl.zero, None) →
   entered (added s (reconcileSpec P ctx o s).2) = specOrder)
  ∧ (ctrl.Requeue (reconcileSpec P ctx o s).1.1 = true →
     entered (added s (reconcileSpec P ctx o s).2) = take 3 specOrder).
Proof.
  unfold reconcileSpec. unfold_monad.
  destruct (reconcileService P ctx o s) as [e1 s1] eqn:H1.
  pose proof (reconcileService_trace _ _ _ _ _ _ H1) as T1.
  destruct e1; [by split|].
  destruct (reconcilePVC P ctx o s1) as [e2 s2] eqn:H2.
  pose proof (reconcilePVC_trace _ _ _ _ _ _ H2) as T2.
  destruct e2; [by split|].
  destruct (reconcileDeployment P ctx o s2) as [[r3 e3] s3] eqn:H3.
  pose proof (reconcileDeployment_trace _ _ _ _ _ _ H3) as T3.
  assert (added s s3 = [Entered StepService; Entered StepPVC;
                        Entered StepDeployment]) as A3.
  { apply added_app. by rewrite T3, T2, T1, <-!(assoc_L (++)). }
  destruct (ctrl.Requeue r3) eqn:Hrequeue.
  { simpl. split; [intros [= ->]; done|]. intros _. by rewrite A3. }
  destruct e3; [by split|].
  destruct (reconcileLimitsConfigMap P ctx o s3) as [e4 s4] eqn:H4.
  pose proof (reconcileLimitsConfigMap_trace _ _ _ _ _ _ H4) as T4.
  destruct e4; [by split|].
  destruct (reconcilePdb P ctx o s4) as [e5 s5] eqn:H5.
  destruct (reconcilePdb_trace _ _ _ _ _ _ H5) as (t5 & T5 & E5).
  destruct e5; [by split|].
  simpl. split; [|done]. intros _.
  erewrite added_app;
    [|by rewrite T5, T4, T3, T2, T1, <-!(assoc_L (++))].
  simpl. by rewrite E5.
Qed.

End Outcome.
